(** * Dead-letter archive writer: [write-db-dlq-records-to-s3.js]

    A shallow embedding of the lambda that enriches dead-letter queue
    records and archives them in S3, with the properties of its
    specification stated and proved against it.

    Layout: JavaScript values and the operators the program uses on them;
    the outcome and call-trace monads; the collaborators imported from other
    packages; the functions of the file; the vocabulary of the specification
    and sample inputs; then the lemmas and the theorems. *)

From Stdlib Require Import ZArith Ascii String List Lia.
From stdpp Require Import base option list gmap strings pretty.

Local Open Scope string_scope.
Local Open Scope list_scope.

(** ** JavaScript values *)

(** The values the lambda handles are JSON documents.  A number is
    represented by an integer (fractions and NaN are not represented; the
    program only ever tests a number for truthiness).  An object is a finite
    map from property names to values. *)
#[warnings="-register-all"]
Inductive value : Type :=
  | VUndefined
  | VNull
  | VBool (b : bool)
  | VNum (n : Z)
  | VStr (s : string)
  | VArr (elems : list value)
  | VObj (props : gmap string value).

(** What a thrown error prints as ([String(e)]). *)
Definition exn : Type := string.

(** ToBoolean: what [if (v)], [!v], [v || w] and [v && w] test. *)
Definition truthy (v : value) : bool :=
  match v with
  | VUndefined | VNull => false
  | VBool b => b
  | VNum n => negb (n =? 0)%Z
  | VStr s => match s with EmptyString => false | String _ _ => true end
  | VArr _ | VObj _ => true
  end.

(** [v || w] *)
Definition js_or (v w : value) : value := if truthy v then v else w.

(** [v || null], the normalisation used for every hoisted field. *)
Definition or_null (v : value) : value := js_or v VNull.

(** The characters of a string, as the one-character strings JavaScript
    indexes them by. *)
Fixpoint chars (s : string) : list value :=
  match s with
  | EmptyString => []
  | String c s' => VStr (String c EmptyString) :: chars s'
  end.

(** The properties ["0"], ["1"], ... of an array or of a string. *)
Definition index_props (l : list value) : gmap string value :=
  list_to_map (imap (fun i v => (pretty i, v)) l).

(** The own enumerable properties of a value: what [{...v}] copies. *)
Definition own_props (v : value) : gmap string value :=
  match v with
  | VObj o => o
  | VArr l => index_props l
  | VStr s => index_props (chars s)
  | VUndefined | VNull | VBool _ | VNum _ => ∅
  end.

(** Reading a property.  The program reads only the properties [error],
    [detail], [executionArn], [stateMachineArn], [status], [time], [meta],
    [collection], [name], [version], [payload], [granules], [granuleId] and
    [Records]; none of them is [length] or a member inherited from a
    built-in prototype, so a read finds an own property or [undefined]. *)
Definition read (v : value) (k : string) : value :=
  default VUndefined (own_props v !! k).

(** The object literal [{k1: v1, ...}]. *)
Definition object (fields : list (string * value)) : value :=
  VObj (list_to_map fields).

(** ** Outcomes *)

(** What running a piece of the program yields: a value, a thrown error, or
    no answer within the allotted number of loop iterations. *)
Inductive outcome (A : Type) : Type :=
  | Returns (a : A)
  | Throws (e : exn)
  | OutOfFuel.
Arguments Returns {A} a.
Arguments Throws {A} e.
Arguments OutOfFuel {A}.

#[global] Instance outcome_ret : MRet outcome := fun A a => Returns a.
#[global] Instance outcome_bind : MBind outcome := fun A B f m =>
  match m with
  | Returns a => f a
  | Throws e => Throws e
  | OutOfFuel => OutOfFuel
  end.

(** A collaborator either throws or returns. *)
Definition of_sum {A} (r : exn + A) : outcome A :=
  match r with
  | inl e => Throws e
  | inr a => Returns a
  end.

(** [v.k]: a [TypeError] on [null] and [undefined]. *)
Definition member (v : value) (k : string) : outcome value :=
  match v with
  | VUndefined =>
      Throws ("TypeError: Cannot read properties of undefined (reading '" +:+ k +:+ "')")
  | VNull =>
      Throws ("TypeError: Cannot read properties of null (reading '" +:+ k +:+ "')")
  | _ => Returns (read v k)
  end.

(** [v?.k] *)
Definition opt_member (v : value) (k : string) : value :=
  match v with
  | VUndefined | VNull => VUndefined
  | _ => read v k
  end.

(** [v instanceof Object] *)
Definition instanceof_Object (v : value) : bool :=
  match v with
  | VArr _ | VObj _ => true
  | _ => false
  end.

(** [k in v], for a [v] that is an object or an array and a [k] other than
    [length] and the inherited members. *)
Definition js_in (k : string) (v : value) : bool :=
  bool_decide (is_Some (own_props v !! k)).

(** [Array.isArray(v)] *)
Definition Array_isArray (v : value) : bool :=
  match v with
  | VArr _ => true
  | _ => false
  end.

(** [get(object, key, dflt)] of lodash, for a one-segment path: the default
    stands in for a missing object and for an [undefined] property. *)
Definition lodash_get (object : value) (k : string) (dflt : value) : value :=
  match opt_member object k with
  | VUndefined => dflt
  | v => v
  end.

(** ** Calls to the outside, and the monad that records them *)

(** The argument of [s3PutObject]. *)
Record PutObjectParams : Type := {
  Bucket : value;
  Key : string;
  Body : string;
}.

(** The calls whose occurrence the specification speaks about. *)
Inductive call : Type :=
  | LogError (msg : string)
  | GetCumulusMessageFromExecutionEvent (event : value)
  | S3PutObject (params : PutObjectParams).

(** A computation that makes calls: the calls made, in order, and how it
    ended. *)
Definition M (A : Type) : Type := list call * outcome A.

#[global] Instance M_ret : MRet M := fun A a => ([], Returns a).
#[global] Instance M_bind : MBind M := fun A B f m =>
  match m with
  | (cs, Returns a) => let '(cs', r) := f a in (cs ++ cs', r)
  | (cs, Throws e) => (cs, Throws e)
  | (cs, OutOfFuel) => (cs, OutOfFuel)
  end.

Definition lift {A} (o : outcome A) : M A := ([], o).
Definition tell (c : call) : M unit := ([c], Returns tt).
Definition calls {A} (m : M A) : list call := fst m.
Definition result {A} (m : M A) : outcome A := snd m.

(** ** Collaborators *)

(** Functions imported from other packages ([@cumulus/aws-client],
    [@cumulus/message], [moment]) and two built-ins.  The lambda is verified
    for every behaviour they may have. *)
Class Collaborators : Type := {
  isSQSRecordLike : value -> bool;
  parseSQSMessageBody : value -> exn + value;
  isDLQRecordLike : value -> bool;
  isEventBridgeEvent : value -> bool;
  constructCollectionId : value -> value -> value;
  isMessageWithProvider : value -> bool;
  getMessageProviderId : value -> value;
  (** [moment.utc(t).format('YYYY-MM-DD')] *)
  moment_utc_format : value -> string;
  (** [JSON.stringify(v)] *)
  JSON_stringify : value -> string;
  (** [Number::toString]: how a number prints *)
  Number_toString : Z -> string;
  (** a value that carries a top-level [error] is neither [null] nor
      [undefined] *)
  isDLQRecordLike_null : isDLQRecordLike VNull = false;
  isDLQRecordLike_undefined : isDLQRecordLike VUndefined = false;
}.

(** A version-4 UUID in its canonical text form,
    [xxxxxxxx-xxxx-4xxx-yxxx-xxxxxxxxxxxx]: 36 characters. *)
Record uuid : Type := {
  uuid_text :> string;
  uuid_length : String.length uuid_text = 36;
}.

(** What the outside answers to one record's pipeline: the resolved message
    or the resolver's failure, the token [uuidv4()] generates, the date
    [moment.utc().format('YYYY-MM-DD')] reads off the clock, and whether the
    write goes through. *)
Record Responses : Type := {
  getCumulusMessageFromExecutionEvent : value -> exn + value;
  uuidv4 : uuid;
  moment_utc_now_format : string;
  s3PutObject : PutObjectParams -> exn + unit;
}.

(** [process.env] *)
Record Env : Type := {
  system_bucket : option string;
  stackName : option string;
}.

(** [process.env.X]: a string, or [undefined] when the variable is unset. *)
Definition env_var (x : option string) : value :=
  match x with
  | Some s => VStr s
  | None => VUndefined
  end.

(** How an invocation of the lambda ends.  A rejected invocation lists the
    failures of its records in batch order; the promise rejects with the one
    that settled first. *)
Inductive invocation : Type :=
  | Fulfilled (returned : value)
  | Rejected (reasons : list exn)
  | Hangs.

(** [ToString], as a template literal applies it.  An array prints its
    elements joined by commas, [null] and [undefined] among them as nothing.
    An object prints through the methods it inherits, [[object Object]],
    unless a [toString] property of its own hides them: no value in a JSON
    document is callable, and neither that property nor [valueOf] then gives
    a primitive, which is a [TypeError]. *)
Fixpoint ToString `{Collaborators} (v : value) : exn + string :=
  match v with
  | VUndefined => inr "undefined"
  | VNull => inr "null"
  | VBool true => inr "true"
  | VBool false => inr "false"
  | VNum n => inr (Number_toString n)
  | VStr s => inr s
  | VArr elems =>
      (fix join (elems : list value) : exn + string :=
         match elems with
         | [] => inr ""
         | x :: rest =>
             match (match x with
                    | VUndefined | VNull => inr ""
                    | _ => ToString x
                    end) with
             | inl e => inl e
             | inr printed =>
                 match rest with
                 | [] => inr printed
                 | _ :: _ =>
                     match join rest with
                     | inl e => inl e
                     | inr others => inr (printed +:+ "," +:+ others)
                     end
                 end
             end
         end) elems
  | VObj props =>
      if bool_decide (is_Some (props !! "toString"))
      then inl "TypeError: Cannot convert object to primitive value"
      else inr "[object Object]"
  end.

(** [`${v}`] *)
Definition template `{Collaborators} (v : value) : outcome string :=
  of_sum (ToString v).

(** ** The program *)

Section Program.
Context `{Collaborators}.

Definition payloadHasGranules (payload : value) : bool :=
  instanceof_Object payload
  && js_in "granules" payload
  && Array_isArray (read payload "granules").

Definition extractCollectionId (message : value) : value :=
  let collectionName :=
    or_null (opt_member (opt_member (opt_member message "meta") "collection") "name") in
  let collectionVersion :=
    or_null (opt_member (opt_member (opt_member message "meta") "collection") "version") in
  if truthy collectionName && truthy collectionVersion
  then constructCollectionId collectionName collectionVersion
  else VNull.

(** [array.map(f)]; calling [map] on anything but an array throws. *)
Definition js_map (f : value -> value) (array : value) : outcome value :=
  match array with
  | VArr l => Returns (VArr (f <$> l))
  | _ => Throws "TypeError: map is not a function"
  end.

Definition extractGranules (message : value) : outcome value :=
  payload ← member message "payload";
  if payloadHasGranules payload then
    granules ← member payload "granules";
    js_map (fun granule => or_null (opt_member granule "granuleId")) granules
  else mret VNull.

(** The [while] loop of [hoistCumulusMessageDetails], from the state
    ([messageBody], [error]) it is entered in; [fuel] bounds the number of
    iterations. *)
Fixpoint denest (fuel : nat) (messageBody error : value) : outcome (value * value) :=
  if isSQSRecordLike messageBody then
    match fuel with
    | O => OutOfFuel
    | S fuel' =>
        error' ← (if isDLQRecordLike messageBody && negb (truthy error)
                  then e ← member messageBody "error"; mret (or_null e)
                  else mret error);
        messageBody' ← of_sum (parseSQSMessageBody messageBody);
        denest fuel' messageBody' error'
    end
  else mret (messageBody, error).

(** The object literal [hoistCumulusMessageDetails] returns: the spread of
    the record, then the eight fields in the order they are written. *)
Definition hoisted (dlqRecord collectionId providerId granules executionArn
    stateMachineArn status time error : value) : value :=
  VObj (<["error" := error]>
       (<["time" := time]>
       (<["status" := status]>
       (<["stateMachineArn" := stateMachineArn]>
       (<["executionArn" := executionArn]>
       (<["granules" := granules]>
       (<["providerId" := providerId]>
       (<["collectionId" := collectionId]>
       (own_props dlqRecord))))))))).

(** The [try]/[catch] around the resolver. *)
Definition try_getCumulusMessage (rsp : Responses) (messageBody : value) : M value :=
  tell (GetCumulusMessageFromExecutionEvent messageBody);;
  match getCumulusMessageFromExecutionEvent rsp messageBody with
  | inr cumulusMessage => mret cumulusMessage
  | inl error_ =>
      tell (LogError ("could not parse details from DLQ message body due to " +:+ error_));;
      mret VUndefined
  end.

Definition hoistCumulusMessageDetails (fuel : nat) (rsp : Responses)
    (dlqRecord : value) : M value :=
  '(messageBody, error) ← lift (denest fuel dlqRecord VNull);
  if isEventBridgeEvent messageBody then
    let executionArn := or_null (opt_member (opt_member messageBody "detail") "executionArn") in
    let stateMachineArn := or_null (opt_member (opt_member messageBody "detail") "stateMachineArn") in
    let status := or_null (opt_member (opt_member messageBody "detail") "status") in
    let time := or_null (opt_member messageBody "time") in
    cumulusMessage ← try_getCumulusMessage rsp messageBody;
    if truthy cumulusMessage then
      let collectionId := extractCollectionId cumulusMessage in
      granules ← lift (extractGranules cumulusMessage);
      let providerId :=
        if isMessageWithProvider cumulusMessage
        then or_null (getMessageProviderId cumulusMessage)
        else VNull in
      mret (hoisted dlqRecord collectionId providerId granules
              executionArn stateMachineArn status time error)
    else
      mret (hoisted dlqRecord VNull VNull VNull
              executionArn stateMachineArn status time error)
  else
    tell (LogError "could not parse details from DLQ message body, expected EventBridgeEvent");;
    mret (hoisted dlqRecord VNull VNull VNull VNull VNull VNull VNull error).

(** The callback [handler] maps over the batch: one record's pipeline. *)
Definition archive (fuel : nat) (env : Env) (rsp : Responses)
    (sqsMessage : value) : M unit :=
  '(massagedMessage, execution) ←
    (if isSQSRecordLike sqsMessage then
       massagedMessage ← hoistCumulusMessageDetails fuel rsp sqsMessage;
       execution ← lift (member massagedMessage "executionArn");
       mret (massagedMessage, execution)
     else mret (sqsMessage, VNull));
  let executionName := js_or execution (VStr "unknown") in
  printed ← lift (template executionName);
  let s3Identifier := printed +:+ "-" +:+ uuidv4 rsp in
  time ← lift (member massagedMessage "time");
  let dateString :=
    if truthy time then moment_utc_format time else moment_utc_now_format rsp in
  stack ← lift (template (env_var (stackName env)));
  let params := {|
    Bucket := env_var (system_bucket env);
    Key := stack +:+ "/dead-letter-archive/sqs/"
           +:+ dateString +:+ "/" +:+ s3Identifier +:+ ".json";
    Body := JSON_stringify massagedMessage |} in
  tell (S3PutObject params);;
  lift (of_sum (s3PutObject rsp params)).

Definition out_of_fuel {A} (o : outcome A) : bool :=
  match o with
  | OutOfFuel => true
  | _ => false
  end.

Definition rejection {A} (o : outcome A) : option exn :=
  match o with
  | Throws e => Some e
  | _ => None
  end.

(** [await Promise.all(promises)] and the end of [handler]'s body.  The
    loop of a record runs synchronously, so one that does not finish holds
    up the whole invocation. *)
Definition await_all (promises : list (outcome unit)) : invocation :=
  if existsb out_of_fuel promises then Hangs
  else match omap rejection promises with
       | [] => Fulfilled VUndefined
       | reasons => Rejected reasons
       end.

(** The lambda.  [world i] is what the outside answers to the pipeline of
    the record at position [i] of the batch; the calls are reported record
    by record, since the pipelines interleave. *)
Definition handler (fuel : nat) (env : Env) (world : nat -> Responses)
    (event : value) : list (list call) * invocation :=
  if negb (truthy (env_var (system_bucket env))) then
    ([], Rejected ["Error: System bucket env var is required."])
  else if negb (truthy (env_var (stackName env))) then
    ([], Rejected ["Error: Could not determine archive path as stackName env var is undefined."])
  else
    match lodash_get event "Records" (VArr []) with
    | VArr sqsMessages =>
        let promises := imap (fun i => archive fuel env (world i)) sqsMessages in
        (calls <$> promises, await_all (result <$> promises))
    | VNull =>
        ([], Rejected ["TypeError: Cannot read properties of null (reading 'map')"])
    | _ => ([], Rejected ["TypeError: sqsMessages.map is not a function"])
    end.

End Program.


(** ** The vocabulary of the specification *)

Section Vocabulary.
Context `{Collaborators}.

(** [layers m ls p]: the envelope [m] consists of the queue-record-like
    layers [ls], outermost first, around the payload [p], which is not
    queue-record-like. *)
Inductive layers : value -> list value -> value -> Prop :=
  | layers_payload p :
      isSQSRecordLike p = false ->
      layers p [] p
  | layers_layer m m' ls p :
      isSQSRecordLike m = true ->
      parseSQSMessageBody m = inr m' ->
      layers m' ls p ->
      layers m (m :: ls) p.

(** [settles n m]: the loop entered on [m] is over after at most [n]
    iterations, be it with a payload or with a failure to parse a body. *)
Inductive settles : nat -> value -> Prop :=
  | settles_payload n p :
      isSQSRecordLike p = false ->
      settles n p
  | settles_throw n m e :
      isSQSRecordLike m = true ->
      parseSQSMessageBody m = inl e ->
      settles (S n) m
  | settles_layer n m m' :
      isSQSRecordLike m = true ->
      parseSQSMessageBody m = inr m' ->
      settles n m' ->
      settles (S n) m.

(** A layer from which the loop captures an error: it is failure-record-like
    and its [error] is truthy. *)
Definition records_error (layer : value) : bool :=
  isDLQRecordLike layer && truthy (read layer "error").

(** The error the loop captures from the layers [ls]. *)
Definition captured_error (ls : list value) : value :=
  match find records_error ls with
  | Some layer => read layer "error"
  | None => VNull
  end.

(** The error a reader of the specification expects: the [error] field of
    the outermost layer that carries one. *)
Definition outermost_error_field (ls : list value) : value :=
  match find isDLQRecordLike ls with
  | Some layer => read layer "error"
  | None => VNull
  end.

(** The names of the eight fields written after the spread. *)
Definition enrichment_fields : list string :=
  ["collectionId"; "providerId"; "granules"; "executionArn";
   "stateMachineArn"; "status"; "time"; "error"].

(** The shape of a storage key:
    [<prefix>/<date>/<execution>-<token>.json]. *)
Definition archive_key (prefix date execution token : string) : string :=
  prefix +:+ "/" +:+ date +:+ "/" +:+ execution +:+ "-" +:+ token +:+ ".json".

(** How [process.env.X] prints in a template literal. *)
Definition env_text (x : option string) : string :=
  match x with
  | Some s => s
  | None => "undefined"
  end.

(** The prefix of the archive, under the stack's name. *)
Definition archive_prefix (env : Env) : string :=
  env_text (stackName env) +:+ "/dead-letter-archive/sqs".

(** The date a record is filed under: that of its time when it has one,
    that of the clock otherwise. *)
Definition date_component (rsp : Responses) (time : value) : string :=
  if truthy time then moment_utc_format time else moment_utc_now_format rsp.

(** The name a record is filed under: its execution, or [unknown]. *)
Definition execution_name (execution : value) : value :=
  js_or execution (VStr "unknown").

(** The write that archives [document], filed under the execution printed
    as [execution] and at the document's time. *)
Definition archive_request (env : Env) (rsp : Responses)
    (document : value) (execution : string) : PutObjectParams := {|
  Bucket := env_var (system_bucket env);
  Key := archive_key (archive_prefix env)
           (date_component rsp (read document "time"))
           execution (uuidv4 rsp);
  Body := JSON_stringify document |}.

(** A field hoisted from the payload: null unless the payload is an
    execution event and the attribute is truthy. *)
Definition event_attribute (payload attribute : value) : value :=
  if isEventBridgeEvent payload then or_null attribute else VNull.

(** The resolved message the metadata is extracted from, if any: the
    payload must be an execution event and the resolver must answer with a
    truthy message. *)
Definition resolved_message (rsp : Responses) (payload : value) : option value :=
  if isEventBridgeEvent payload then
    match getCumulusMessageFromExecutionEvent rsp payload with
    | inr message => if truthy message then Some message else None
    | inl _ => None
    end
  else None.

(** [massaged fuel rsp sqsMessage document execution]: the pipeline of
    [sqsMessage] gets as far as the write, with [document] to store and
    [execution] to file it under. *)
Definition massaged (fuel : nat) (rsp : Responses) (sqsMessage : value)
    (document execution : value) : Prop :=
  (isSQSRecordLike sqsMessage = false /\
   document = sqsMessage /\ execution = VNull) \/
  (isSQSRecordLike sqsMessage = true /\
   result (hoistCumulusMessageDetails fuel rsp sqsMessage) = Returns document /\
   execution = read document "executionArn" /\
   (execution = VNull \/ truthy execution = true) /\
   (read document "time" = VNull \/ truthy (read document "time") = true)).

(** The environment names the bucket and the stack. *)
Definition configured (env : Env) : Prop :=
  truthy (env_var (system_bucket env)) = true /\
  truthy (env_var (stackName env)) = true.

End Vocabulary.

Section Failures.
Context `{Collaborators}.

(** [broken m ls e]: the envelope [m] has the queue-record-like layers
    [ls], outermost first, and the body of the innermost of them fails to
    parse, with [e]. *)
Inductive broken : value -> list value -> exn -> Prop :=
  | broken_here m e :
      isSQSRecordLike m = true ->
      parseSQSMessageBody m = inl e ->
      broken m [m] e
  | broken_layer m m' ls e :
      isSQSRecordLike m = true ->
      parseSQSMessageBody m = inr m' ->
      broken m' ls e ->
      broken m (m :: ls) e.


(** A value that is null or truthy: what [v || null] leaves. *)
Definition null_or_truthy (v : value) : Prop :=
  v = VNull \/ truthy v = true.

End Failures.

(** The granules array of a message's payload, when the payload has one. *)
Definition payload_granules (message : value) : option (list value) :=
  match read message "payload" with
  | VObj payload =>
      match payload !! "granules" with
      | Some (VArr granules) => Some granules
      | _ => None
      end
  | _ => None
  end.

(** The identifier extracted from a granule: its [granuleId] when it has a
    truthy one, [null] otherwise. *)
Definition granule_id (granule : value) : value :=
  match own_props granule !! "granuleId" with
  | Some id => if truthy id then id else VNull
  | None => VNull
  end.

(** The identifier a reader of the specification expects: the [granuleId]
    attribute, [null] for a granule that lacks one. *)
Definition granuleId_attribute (granule : value) : value :=
  match own_props granule !! "granuleId" with
  | Some id => id
  | None => VNull
  end.

(** An attribute of the collection in a message's metadata, when the
    message has it. *)
Definition collection_attribute (message : value) (k : string) : option value :=
  meta ← own_props message !! "meta";
  collection ← own_props meta !! "collection";
  own_props collection !! k.

(** Decimal digits, and the strings made of them: the names of the indexed
    properties of arrays and strings. *)
Definition digit (c : Ascii.ascii) : bool :=
  bool_decide (c ∈ ["0"; "1"; "2"; "3"; "4"; "5"; "6"; "7"; "8"; "9"]%char).

Fixpoint numeral (s : string) : bool :=
  match s with
  | EmptyString => true
  | String c s' => digit c && numeral s'
  end.

(** Strings of a given shape, character class by character class, and the
    calendar dates among them, [YYYY-MM-DD]. *)
Fixpoint shaped (classes : list (Ascii.ascii -> bool)) (s : string) : bool :=
  match classes, s with
  | [], EmptyString => true
  | class :: classes', String c s' => class c && shaped classes' s'
  | _, _ => false
  end.

Definition hyphen (c : Ascii.ascii) : bool := bool_decide (c = "-"%char).

Definition calendar_date (s : string) : bool :=
  shaped [digit; digit; digit; digit; hyphen;
          digit; digit; hyphen; digit; digit] s.

(** ** Sample collaborators *)

Module Sample.

(** Modelled from the spec: the queue-record recognizer of
    [@cumulus/aws-client/SQS].  A value is queue-record-like when it is an
    object that has a body. *)
Definition isSQSRecordLike (v : value) : bool :=
  match v with
  | VObj o => bool_decide (is_Some (o !! "body"))
  | _ => false
  end.

(** A stand-in for the body parser of [@cumulus/aws-client/SQS], which the
    specification describes as returning the inner body of an envelope,
    decoded from transport-encoded text if needed.  Decoding is not
    modelled: the samples carry their bodies decoded, which the stand-in
    returns, and a body that is still text fails to parse. *)
Definition parseSQSMessageBody (v : value) : exn + value :=
  match read v "body" with
  | VStr _ => inl "SyntaxError: body is not decoded"
  | body => inr body
  end.

(** Modelled from the spec: the failure-record recognizer of
    [@cumulus/message/DeadLetterMessage]: the value carries a top-level
    [error] string. *)
Definition isDLQRecordLike (v : value) : bool :=
  match v with
  | VObj o => match o !! "error" with Some (VStr _) => true | _ => false end
  | _ => false
  end.

(** Modelled from the spec: the execution-event recognizer of
    [@cumulus/aws-client/Lambda]: a nested [detail] object and a top-level
    timestamp. *)
Definition isEventBridgeEvent (v : value) : bool :=
  match v with
  | VObj o =>
      match o !! "detail", o !! "time" with
      | Some (VObj _), Some _ => true
      | _, _ => false
      end
  | _ => false
  end.

(** How a template literal prints the values that are not strings, as far
    as the samples need it. *)
Definition ToString (v : value) : string :=
  match v with
  | VUndefined => "undefined"
  | VNull => "null"
  | VBool true => "true"
  | VBool false => "false"
  | VNum n => pretty n
  | VStr s => s
  | VArr _ => "[array]"
  | VObj _ => "[object Object]"
  end.

(** Modelled from the spec: the collection-id composer of
    [@cumulus/message/Collections], [name___version]. *)
Definition constructCollectionId (name version : value) : value :=
  VStr (match name with VStr s => s | _ => ToString name end
        +:+ "___" +:+
        match version with VStr s => s | _ => ToString version end).

(** Modelled from the spec: the provider-bearing recognizer and the
    provider-id getter of [@cumulus/message/Providers]. *)
Definition isMessageWithProvider (message : value) : bool :=
  match opt_member (opt_member (opt_member message "meta") "provider") "id" with
  | VStr _ => true
  | _ => false
  end.

Definition getMessageProviderId (message : value) : value :=
  opt_member (opt_member (opt_member message "meta") "provider") "id".

(** A stand-in for [moment]: it reads the calendar dates [YYYY-MM-DD] and
    the timestamps that start with one and end in [Z], and prints the date;
    anything else is no date to it.  Timestamps with an offset, which
    [moment] converts, are not modelled. *)
Definition moment_utc_format (t : value) : string :=
  match t with
  | VStr s =>
      if calendar_date (substring 0 10 s)
         && (bool_decide (String.length s = 10%nat)
             || bool_decide (substring (String.length s - 1) 1 s = "Z"))
      then substring 0 10 s
      else "Invalid date"
  | _ => "Invalid date"
  end.

(** A stand-in for [JSON.stringify] that tells apart the samples'
    documents by their top-level property names. *)
Definition JSON_stringify (v : value) : string :=
  match v with
  | VObj o => "{" +:+ String.concat "," (fst <$> map_to_list o) +:+ "}"
  | _ => ToString v
  end.

#[export] Instance collaborators : Collaborators :=
  Build_Collaborators isSQSRecordLike parseSQSMessageBody isDLQRecordLike
    isEventBridgeEvent constructCollectionId isMessageWithProvider
    getMessageProviderId moment_utc_format JSON_stringify pretty
    eq_refl eq_refl.

(** *** Sample data *)

Definition execution_event : value :=
  object [("detail", object [
             ("executionArn", VStr "arn:aws:states:us-east-1:1:execution:ingest:run-1");
             ("stateMachineArn", VStr "arn:aws:states:us-east-1:1:stateMachine:ingest");
             ("status", VStr "FAILED")]);
          ("time", VStr "2024-03-05T10:00:00Z")].

(** A failure record around the event. *)
Definition inner_record : value :=
  object [("body", execution_event); ("error", VStr "Lambda timed out")].

(** A failure record around [inner_record], whose own error is empty. *)
Definition outer_record : value :=
  object [("body", inner_record); ("error", VStr ""); ("messageId", VStr "m-1")].

(** A queue record around the event, with a [status] of its own. *)
Definition plain_record : value :=
  object [("body", execution_event); ("messageId", VStr "m-2");
          ("status", VStr "stale")].

(** A queue record around something that is not an execution event. *)
Definition unrecognised_record : value :=
  object [("body", object [("note", VStr "not an event")]);
          ("messageId", VStr "m-3")].


Definition workflow_message : value :=
  object [("meta", object [
             ("collection", object [("name", VStr "MOD09"); ("version", VStr "006")]);
             ("provider", object [("id", VStr "s3-provider")])]);
          ("payload", object [
             ("granules", VArr [object [("granuleId", VStr "G1")]; object []])])].

(** A message whose collection has an empty name. *)
Definition unnamed_collection_message : value :=
  object [("meta", object [
             ("collection", object [("name", VStr ""); ("version", VStr "006")])])].

(** A message with a granule whose identifier is empty. *)
Definition empty_granuleId_message : value :=
  object [("payload", object [
             ("granules", VArr [object [("granuleId", VStr "")]])])].

Definition token_1 : uuid :=
  {| uuid_text := "1b4e28ba-2fa1-41d2-883f-0016d3cca427"; uuid_length := eq_refl |}.

Definition token_2 : uuid :=
  {| uuid_text := "6fa459ea-ee8a-4ca4-894e-db77e160355e"; uuid_length := eq_refl |}.

(** The resolver and the store both answer. *)
Definition all_up (token : uuid) : Responses := {|
  getCumulusMessageFromExecutionEvent := fun _ => inr workflow_message;
  uuidv4 := token;
  moment_utc_now_format := "2026-11-02";
  s3PutObject := fun _ => inr tt |}.

(** The resolver throws. *)
Definition resolver_down (token : uuid) : Responses := {|
  getCumulusMessageFromExecutionEvent := fun _ => inl "Error: execution history is gone";
  uuidv4 := token;
  moment_utc_now_format := "2026-11-02";
  s3PutObject := fun _ => inr tt |}.


Definition env : Env :=
  {| system_bucket := Some "internal"; stackName := Some "cumulus" |}.

(** A batch of two copies of one record. *)
Definition twin_batch : value :=
  object [("Records", VArr [plain_record; plain_record])].

(** The answers to the first record's pipeline and to the others. *)
Definition first_then (first rest : Responses) (i : nat) : Responses :=
  match i with
  | O => first
  | S _ => rest
  end.

(** An environment that names no bucket, and one that names no stack. *)
Definition env_without_bucket : Env :=
  {| system_bucket := None; stackName := None |}.

Definition env_without_stack : Env :=
  {| system_bucket := Some "internal"; stackName := Some "" |}.





(** A queue record whose body is not a document. *)
Definition garbled_record : value :=
  object [("body", VStr "<html>Bad Gateway</html>"); ("messageId", VStr "m-4")].


(** The answers to a batch of two, all well: a token each. *)
Definition two_tokens : nat -> Responses :=
  first_then (all_up token_1) (all_up token_2).


End Sample.


(** ** Basic facts *)

Lemma opt_member_read v k : opt_member v k = read v k.
Proof. by destruct v. Qed.

Lemma truthy_or_null v : truthy v = true -> or_null v = v.
Proof. unfold or_null, js_or. by intros ->. Qed.

Lemma falsy_or_null v : truthy v = false -> or_null v = VNull.
Proof. unfold or_null, js_or. by intros ->. Qed.

Lemma or_null_cases v : or_null v = VNull \/ truthy (or_null v) = true.
Proof.
  unfold or_null, js_or. destruct (truthy v) eqn:E; [right | left]; done.
Qed.

Lemma member_Returns v k :
  v <> VNull -> v <> VUndefined -> member v k = Returns (read v k).
Proof. by destruct v. Qed.

Lemma member_truthy v k : truthy v = true -> member v k = Returns (read v k).
Proof. by destruct v. Qed.

Section Facts.
Context `{Collaborators}.

Lemma isDLQRecordLike_member m k :
  isDLQRecordLike m = true -> member m k = Returns (read m k).
Proof.
  intros Hm. apply member_Returns; intros ->.
  - by rewrite isDLQRecordLike_null in Hm.
  - by rewrite isDLQRecordLike_undefined in Hm.
Qed.

(** One iteration of the loop on a layer whose body parses. *)
Lemma denest_layer fuel m m' error :
  isSQSRecordLike m = true ->
  parseSQSMessageBody m = inr m' ->
  denest (S fuel) m error =
  denest fuel m'
    (if isDLQRecordLike m && negb (truthy error)
     then or_null (read m "error") else error).
Proof.
  intros Hm Hp. simpl. rewrite Hm, Hp.
  destruct (isDLQRecordLike m) eqn:Hd; simpl; [|done].
  destruct (truthy error); simpl; [done|].
  by rewrite isDLQRecordLike_member.
Qed.

Lemma denest_payload fuel p error :
  isSQSRecordLike p = false -> denest fuel p error = Returns (p, error).
Proof. intros Hp. destruct fuel; simpl; by rewrite Hp. Qed.

(** Once an error is captured the loop keeps it. *)
Lemma denest_keeps_error m ls p :
  layers m ls p ->
  forall fuel error, length ls <= fuel -> truthy error = true ->
  denest fuel m error = Returns (p, error).
Proof.
  induction 1 as [p Hp | m m' ls p Hm Hparse _ IH]; intros fuel error Hfuel Herr.
  - by apply denest_payload.
  - destruct fuel as [|fuel]; simpl in Hfuel; [lia|].
    rewrite (denest_layer _ _ m') by done.
    rewrite Herr, andb_false_r. apply IH; [lia | done].
Qed.

(** The loop entered with no error captured yet. *)
Lemma denest_captures m ls p :
  layers m ls p ->
  forall fuel, length ls <= fuel ->
  denest fuel m VNull = Returns (p, captured_error ls).
Proof.
  induction 1 as [p Hp | m m' ls p Hm Hparse Hls IH]; intros fuel Hfuel.
  - by apply denest_payload.
  - destruct fuel as [|fuel]; simpl in Hfuel; [lia|].
    rewrite (denest_layer _ _ m') by done.
    unfold captured_error. simpl. unfold records_error at 1.
    destruct (isDLQRecordLike m); simpl; [|apply IH; lia].
    destruct (truthy (read m "error")) eqn:Herr.
    + rewrite truthy_or_null by done.
      eapply denest_keeps_error; [done | lia | done].
    + rewrite falsy_or_null by done. apply IH; lia.
Qed.

Lemma layers_payload_not_like m ls p :
  layers m ls p -> isSQSRecordLike p = false.
Proof. by induction 1. Qed.

Lemma layers_settles m ls p : layers m ls p -> settles (length ls) m.
Proof.
  induction 1; simpl; [by apply settles_payload | by eapply settles_layer].
Qed.

Lemma settles_mono n m : settles n m -> forall n', n <= n' -> settles n' m.
Proof.
  induction 1 as [n p Hp | n m e Hm He | n m m' Hm Hp _ IH]; intros n' Hn.
  - by apply settles_payload.
  - destruct n'; [lia|]. by eapply settles_throw.
  - destruct n'; [lia|]. eapply settles_layer; [done..|]. apply IH. lia.
Qed.

Lemma settles_denest n m :
  settles n m -> forall error, out_of_fuel (denest n m error) = false.
Proof.
  induction 1 as [n p Hp | n m e Hm He | n m m' Hm Hp _ IH]; intros error.
  - by rewrite denest_payload.
  - simpl. rewrite Hm, He.
    destruct (isDLQRecordLike m && negb (truthy error)); [|done].
    unfold member. destruct m; reflexivity.
  - rewrite (denest_layer _ _ m') by done. apply IH.
Qed.

End Facts.

(** ** The enriched record *)

Section Hoisted.
Context (dlqRecord collectionId providerId granules executionArn
         stateMachineArn status time error : value).

Let enriched : value :=
  hoisted dlqRecord collectionId providerId granules executionArn
    stateMachineArn status time error.

Lemma hoisted_fields :
  own_props enriched !! "collectionId" = Some collectionId /\
  own_props enriched !! "providerId" = Some providerId /\
  own_props enriched !! "granules" = Some granules /\
  own_props enriched !! "executionArn" = Some executionArn /\
  own_props enriched !! "stateMachineArn" = Some stateMachineArn /\
  own_props enriched !! "status" = Some status /\
  own_props enriched !! "time" = Some time /\
  own_props enriched !! "error" = Some error.
Proof. subst enriched. unfold hoisted. simpl. by simplify_map_eq. Qed.

Lemma hoisted_other k :
  k ∉ enrichment_fields ->
  own_props enriched !! k = own_props dlqRecord !! k.
Proof.
  intros Hk. subst enriched. unfold hoisted. simpl.
  unfold enrichment_fields in Hk.
  repeat (rewrite lookup_insert_ne; [|intros <-; apply Hk; set_solver]).
  done.
Qed.

Lemma hoisted_truthy : truthy enriched = true.
Proof. done. Qed.

Lemma read_hoisted_executionArn : read enriched "executionArn" = executionArn.
Proof. unfold read. by rewrite (proj1 (proj2 (proj2 (proj2 hoisted_fields)))). Qed.

Lemma read_hoisted_time : read enriched "time" = time.
Proof.
  unfold read.
  by rewrite (proj1 (proj2 (proj2 (proj2 (proj2 (proj2 (proj2 hoisted_fields))))))).
Qed.

End Hoisted.

(** ** The metadata extractors *)

(** Granules are extracted from any resolved message the caller lets
    through, that is, any truthy one. *)
Lemma extractGranules_returns message :
  truthy message = true -> exists granules, extractGranules message = Returns granules.
Proof.
  intros Hm. unfold extractGranules. rewrite member_truthy by done. simpl.
  destruct (payloadHasGranules (read message "payload")) eqn:Hp; [|by eexists].
  unfold payloadHasGranules in Hp.
  apply andb_prop in Hp as [Hp Harr]. apply andb_prop in Hp as [Hobj _].
  rewrite member_Returns by (by intros E; rewrite E in Hobj).
  simpl. destruct (read (read message "payload") "granules"); try done.
  by eexists.
Qed.

(** ** The per-record pipeline *)

(** None of the calls listed is a write to the store. *)
Ltac no_write :=
  let Hin := fresh "Hin" in
  intros ? Hin;
  repeat (apply elem_of_cons in Hin as [Hin|Hin]; [discriminate Hin|]);
  by apply elem_of_nil in Hin.

Section Pipeline.
Context `{Collaborators}.
Context (fuel : nat) (rsp : Responses) (dlqRecord payload error : value).
Hypothesis Hdenest : denest fuel dlqRecord VNull = Returns (payload, error).

Let executionArn : value := or_null (read (read payload "detail") "executionArn").
Let stateMachineArn : value := or_null (read (read payload "detail") "stateMachineArn").
Let status : value := or_null (read (read payload "detail") "status").
Let time : value := or_null (read payload "time").

(** A payload that is not an execution event. *)
Lemma hoist_unclassified :
  isEventBridgeEvent payload = false ->
  hoistCumulusMessageDetails fuel rsp dlqRecord =
  ([LogError "could not parse details from DLQ message body, expected EventBridgeEvent"],
   Returns (hoisted dlqRecord VNull VNull VNull VNull VNull VNull VNull error)).
Proof.
  intros Hev. unfold hoistCumulusMessageDetails. rewrite Hdenest. simpl.
  by rewrite Hev.
Qed.

(** An execution event on which the resolver throws. *)
Lemma hoist_unresolved e :
  isEventBridgeEvent payload = true ->
  getCumulusMessageFromExecutionEvent rsp payload = inl e ->
  hoistCumulusMessageDetails fuel rsp dlqRecord =
  ([GetCumulusMessageFromExecutionEvent payload;
    LogError ("could not parse details from DLQ message body due to " +:+ e)],
   Returns (hoisted dlqRecord VNull VNull VNull
              executionArn stateMachineArn status time error)).
Proof.
  intros Hev Hres. unfold hoistCumulusMessageDetails. rewrite Hdenest. simpl.
  rewrite Hev. unfold try_getCumulusMessage. rewrite Hres. simpl.
  by rewrite !opt_member_read.
Qed.

(** An execution event the resolver answers with nothing usable. *)
Lemma hoist_resolved_falsy cumulusMessage :
  isEventBridgeEvent payload = true ->
  getCumulusMessageFromExecutionEvent rsp payload = inr cumulusMessage ->
  truthy cumulusMessage = false ->
  hoistCumulusMessageDetails fuel rsp dlqRecord =
  ([GetCumulusMessageFromExecutionEvent payload],
   Returns (hoisted dlqRecord VNull VNull VNull
              executionArn stateMachineArn status time error)).
Proof.
  intros Hev Hres Hcm. unfold hoistCumulusMessageDetails. rewrite Hdenest. simpl.
  rewrite Hev. unfold try_getCumulusMessage. rewrite Hres. simpl.
  rewrite Hcm. by rewrite !opt_member_read.
Qed.

(** An execution event the resolver answers with a message. *)
Lemma hoist_resolved cumulusMessage granules :
  isEventBridgeEvent payload = true ->
  getCumulusMessageFromExecutionEvent rsp payload = inr cumulusMessage ->
  truthy cumulusMessage = true ->
  extractGranules cumulusMessage = Returns granules ->
  hoistCumulusMessageDetails fuel rsp dlqRecord =
  ([GetCumulusMessageFromExecutionEvent payload],
   Returns (hoisted dlqRecord
              (extractCollectionId cumulusMessage)
              (if isMessageWithProvider cumulusMessage
               then or_null (getMessageProviderId cumulusMessage) else VNull)
              granules
              executionArn stateMachineArn status time error)).
Proof.
  intros Hev Hres Hcm Hgr. unfold hoistCumulusMessageDetails. rewrite Hdenest. simpl.
  rewrite Hev. unfold try_getCumulusMessage. rewrite Hres. simpl.
  rewrite Hcm, Hgr. simpl. by rewrite !opt_member_read.
Qed.

(** Whatever the payload and the resolver, the record is enriched, and the
    captured error is the one it carries. *)
Lemma hoist_returns :
  exists cs collectionId providerId granules executionArn' stateMachineArn' status' time',
    hoistCumulusMessageDetails fuel rsp dlqRecord =
    (cs, Returns (hoisted dlqRecord collectionId providerId granules
                    executionArn' stateMachineArn' status' time' error)) /\
    (forall params, S3PutObject params ∉ cs) /\
    (time' = VNull \/ truthy time' = true) /\
    (executionArn' = VNull \/ truthy executionArn' = true).
Proof.
  destruct (isEventBridgeEvent payload) eqn:Hev.
  - destruct (getCumulusMessageFromExecutionEvent rsp payload) as [e|cm] eqn:Hres.
    + do 8 eexists. split; [by eapply hoist_unresolved|].
      split; [no_write|]. split; apply or_null_cases.
    + destruct (truthy cm) eqn:Hcm.
      * destruct (extractGranules_returns cm Hcm) as [g Hg].
        do 8 eexists. split; [by eapply hoist_resolved|].
        split; [no_write|]. split; apply or_null_cases.
      * do 8 eexists. split; [by eapply hoist_resolved_falsy|].
        split; [no_write|]. split; apply or_null_cases.
  - do 8 eexists. split; [by apply hoist_unclassified|].
    split; [no_write|]. split; by left.
Qed.

End Pipeline.

(** The fields hoisted from the payload, whatever the resolver does. *)
Lemma hoist_event_fields `{Collaborators} fuel rsp dlqRecord payload error :
  denest fuel dlqRecord VNull = Returns (payload, error) ->
  exists cs collectionId providerId granules,
    hoistCumulusMessageDetails fuel rsp dlqRecord =
    (cs, Returns (hoisted dlqRecord collectionId providerId granules
                    (event_attribute payload (read (read payload "detail") "executionArn"))
                    (event_attribute payload (read (read payload "detail") "stateMachineArn"))
                    (event_attribute payload (read (read payload "detail") "status"))
                    (event_attribute payload (read payload "time"))
                    error)).
Proof.
  intros Hden. unfold event_attribute.
  destruct (isEventBridgeEvent payload) eqn:Hev.
  - destruct (getCumulusMessageFromExecutionEvent rsp payload) as [e|cm] eqn:Hres.
    + do 4 eexists. by eapply hoist_unresolved.
    + destruct (truthy cm) eqn:Hcm.
      * destruct (extractGranules_returns cm Hcm) as [g Hg].
        do 4 eexists. by eapply hoist_resolved.
      * do 4 eexists. by eapply hoist_resolved_falsy.
  - do 4 eexists. exact (hoist_unclassified fuel rsp _ payload _ Hden Hev).
Qed.

(** ** Storage keys *)

Lemma string_app_assoc (a b c : string) : (a +:+ b) +:+ c = a +:+ (b +:+ c).
Proof.
  induction a as [|x a IH]; [done|].
  change (String x ((a +:+ b) +:+ c) = String x (a +:+ (b +:+ c))). by f_equal.
Qed.

Lemma string_app_length (a b : string) :
  String.length (a +:+ b) = String.length a + String.length b.
Proof.
  induction a as [|x a IH]; [done|].
  change (S (String.length (a +:+ b)) = S (String.length a + String.length b)).
  by f_equal.
Qed.

(** Equal strings split at the same distance from their end have equal
    parts. *)
Lemma string_app_inv (a1 a2 b1 b2 : string) :
  String.length b1 = String.length b2 ->
  a1 +:+ b1 = a2 +:+ b2 -> a1 = a2 /\ b1 = b2.
Proof.
  intros Hlen. revert a2.
  induction a1 as [|x a1 IH]; intros [|y a2] Heq.
  - done.
  - apply (f_equal String.length) in Heq.
    rewrite !string_app_length in Heq. simpl in Heq. lia.
  - apply (f_equal String.length) in Heq.
    rewrite !string_app_length in Heq. simpl in Heq. lia.
  - injection Heq as -> Heq. destruct (IH a2 Heq) as [-> ->]. done.
Qed.

Lemma archive_key_split prefix date execution token :
  archive_key prefix date execution token =
  (prefix +:+ "/" +:+ date +:+ "/" +:+ execution +:+ "-") +:+ (token +:+ ".json").
Proof. unfold archive_key. by rewrite !string_app_assoc. Qed.

(** Keys that carry tokens of the same length are equal only if the tokens
    are. *)
Lemma archive_key_token_inj prefix1 date1 execution1 token1
    prefix2 date2 execution2 token2 :
  String.length token1 = String.length token2 ->
  archive_key prefix1 date1 execution1 token1 =
  archive_key prefix2 date2 execution2 token2 ->
  token1 = token2.
Proof.
  intros Hlen Heq. rewrite !archive_key_split in Heq.
  apply string_app_inv in Heq as [_ Heq].
  - by apply string_app_inv in Heq as [Heq _].
  - rewrite !string_app_length. simpl. lia.
Qed.

(** The key as [handler] writes it. *)
Lemma handler_key_shape stack date execution token :
  stack +:+ "/dead-letter-archive/sqs/" +:+ date +:+ "/"
    +:+ (execution +:+ "-" +:+ token) +:+ ".json" =
  archive_key (stack +:+ "/dead-letter-archive/sqs") date execution token.
Proof. unfold archive_key. rewrite !string_app_assoc. reflexivity. Qed.

Section Archive.
Context `{Collaborators}.

(** A template literal prints a string as it is. *)
Lemma template_string s : template (VStr s) = Returns s.
Proof. done. Qed.

Lemma template_env_var x : template (env_var x) = Returns (env_text x).
Proof. by destruct x. Qed.

(** Printing returns or throws. *)
Lemma template_cases v :
  (exists printed, template v = Returns printed) \/
  (exists e, template v = Throws e).
Proof.
  unfold template. destruct (ToString v) as [e|printed]; [right|left]; by eexists.
Qed.

(** With no execution the name is [unknown]. *)
Lemma template_no_execution execution :
  truthy execution = false ->
  template (execution_name execution) = Returns "unknown".
Proof. unfold execution_name, js_or. by intros ->. Qed.

(** A record that is not queue-record-like goes to the store as it is. *)
Lemma archive_opaque fuel env rsp sqsMessage :
  isSQSRecordLike sqsMessage = false ->
  sqsMessage <> VNull -> sqsMessage <> VUndefined ->
  archive fuel env rsp sqsMessage =
  ([S3PutObject (archive_request env rsp sqsMessage "unknown")],
   of_sum (s3PutObject rsp (archive_request env rsp sqsMessage "unknown"))).
Proof.
  intros Hlike Hnull Hundef. unfold archive. rewrite Hlike. simpl.
  rewrite member_Returns by done. simpl.
  rewrite template_env_var. simpl.
  by rewrite handler_key_shape.
Qed.

(** A queue-record-like record whose execution prints goes to the store
    enriched. *)
Lemma archive_enriched fuel env rsp sqsMessage cs enriched printed :
  isSQSRecordLike sqsMessage = true ->
  hoistCumulusMessageDetails fuel rsp sqsMessage = (cs, Returns enriched) ->
  truthy enriched = true ->
  template (execution_name (read enriched "executionArn")) = Returns printed ->
  archive fuel env rsp sqsMessage =
  (cs ++ [S3PutObject (archive_request env rsp enriched printed)],
   of_sum (s3PutObject rsp (archive_request env rsp enriched printed))).
Proof.
  intros Hlike Hhoist Htruthy Hprint. unfold archive. rewrite Hlike, Hhoist. simpl.
  rewrite member_truthy by done. simpl.
  unfold execution_name in Hprint. rewrite Hprint. simpl.
  rewrite member_truthy by done. simpl.
  rewrite template_env_var. simpl.
  by rewrite handler_key_shape, !app_nil_r.
Qed.

(** One whose execution does not print is not written. *)
Lemma archive_unprintable fuel env rsp sqsMessage cs enriched e :
  isSQSRecordLike sqsMessage = true ->
  hoistCumulusMessageDetails fuel rsp sqsMessage = (cs, Returns enriched) ->
  truthy enriched = true ->
  template (execution_name (read enriched "executionArn")) = Throws e ->
  archive fuel env rsp sqsMessage = (cs, Throws e).
Proof.
  intros Hlike Hhoist Htruthy Hprint. unfold archive. rewrite Hlike, Hhoist. simpl.
  rewrite member_truthy by done. simpl.
  unfold execution_name in Hprint. rewrite Hprint. simpl.
  by rewrite !app_nil_r.
Qed.

(** A pipeline whose loop is over within the fuel does not run out of it. *)
Lemma archive_settles fuel env rsp sqsMessage :
  settles fuel sqsMessage ->
  out_of_fuel (result (archive fuel env rsp sqsMessage)) = false.
Proof.
  intros Hs.
  destruct (isSQSRecordLike sqsMessage) eqn:Hlike.
  - pose proof (settles_denest _ _ Hs VNull) as Hd.
    destruct (denest fuel sqsMessage VNull) as [[p err]| |] eqn:Hden; [| |done].
    + destruct (hoist_returns fuel rsp sqsMessage p err Hden)
        as (cs & c & pr & g & ea & sm & st & t & Hh & _).
      match type of Hh with _ = (_, Returns ?enriched) =>
        destruct (template_cases (execution_name (read enriched "executionArn")))
          as [[printed Hp]|[e Hp]]
      end.
      * erewrite archive_enriched; [|done..].
        unfold result. simpl. by destruct (s3PutObject _ _).
      * by erewrite archive_unprintable.
    + unfold archive, hoistCumulusMessageDetails. rewrite Hlike, Hden. done.
  - assert (sqsMessage = VNull \/ sqsMessage = VUndefined \/
            (sqsMessage <> VNull /\ sqsMessage <> VUndefined))
      as [->|[->|[Hn Hu]]] by (destruct sqsMessage; naive_solver).
    + unfold archive. by rewrite Hlike.
    + unfold archive. by rewrite Hlike.
    + rewrite archive_opaque by done. unfold result. simpl.
      by destruct (s3PutObject _ _).
Qed.

End Archive.

(** ** What a record's pipeline writes *)

Section Writes.
Context `{Collaborators}.

(** A pipeline makes at most one write, its last call, and ends as that
    write ends. *)
Lemma archive_write_inv fuel env rsp sqsMessage params :
  S3PutObject params ∈ calls (archive fuel env rsp sqsMessage) ->
  exists document execution printed,
    massaged fuel rsp sqsMessage document execution /\
    template (execution_name execution) = Returns printed /\
    params = archive_request env rsp document printed /\
    result (archive fuel env rsp sqsMessage) = of_sum (s3PutObject rsp params).
Proof.
  intros Hin.
  destruct (isSQSRecordLike sqsMessage) eqn:Hlike.
  - destruct (denest fuel sqsMessage VNull) as [[p err]| |] eqn:Hden.
    + destruct (hoist_returns fuel rsp sqsMessage p err Hden)
        as (cs & c & pr & g & ea & sm & st & t & Hh & Hcs & Ht & Hea).
      match type of Hh with _ = (_, Returns ?enriched) =>
        destruct (template_cases (execution_name (read enriched "executionArn")))
          as [[printed Hp]|[e Hp]]
      end.
      * erewrite archive_enriched in Hin |- *; [|done..].
        unfold calls in Hin. simpl in Hin.
        apply elem_of_app in Hin as [Hin|Hin]; [by apply Hcs in Hin|].
        apply list_elem_of_singleton in Hin. injection Hin as ->.
        eexists _, _, printed. split; [|done].
        right. rewrite Hh, read_hoisted_executionArn, read_hoisted_time. done.
      * erewrite archive_unprintable in Hin; [|done..].
        by apply Hcs in Hin.
    + unfold archive, hoistCumulusMessageDetails in Hin.
      rewrite Hlike, Hden in Hin. by apply elem_of_nil in Hin.
    + unfold archive, hoistCumulusMessageDetails in Hin.
      rewrite Hlike, Hden in Hin. by apply elem_of_nil in Hin.
  - assert (sqsMessage = VNull \/ sqsMessage = VUndefined \/
            (sqsMessage <> VNull /\ sqsMessage <> VUndefined))
      as [->|[->|[Hn Hu]]] by (destruct sqsMessage; naive_solver).
    + unfold archive in Hin. rewrite Hlike in Hin. by apply elem_of_nil in Hin.
    + unfold archive in Hin. rewrite Hlike in Hin. by apply elem_of_nil in Hin.
    + rewrite archive_opaque in Hin |- * by done.
      unfold calls in Hin. simpl in Hin.
      apply list_elem_of_singleton in Hin. injection Hin as ->.
      eexists _, VNull, _. split; [by left|]. done.
Qed.

End Writes.

(** ** The invocation *)


Lemma await_all_rejected promises e :
  Forall (fun o => out_of_fuel o = false) promises ->
  Throws e ∈ promises ->
  exists reasons, await_all promises = Rejected reasons /\ e ∈ reasons.
Proof.
  intros Hall Hin. unfold await_all.
  assert (existsb out_of_fuel promises = false) as ->.
  { clear Hin. induction Hall as [|o os Ho _ IH]; [done|]. simpl. by rewrite Ho. }
  assert (e ∈ omap rejection promises) as He.
  { apply list_elem_of_omap. by exists (Throws e). }
  destruct (omap rejection promises) as [|e' es]; [by apply elem_of_nil in He|].
  by eexists.
Qed.

Section Invocation.
Context `{Collaborators}.

Lemma handler_configured fuel env world event sqsMessages :
  configured env ->
  lodash_get event "Records" (VArr []) = VArr sqsMessages ->
  handler fuel env world event =
  (calls <$> imap (fun i => archive fuel env (world i)) sqsMessages,
   await_all (result <$> imap (fun i => archive fuel env (world i)) sqsMessages)).
Proof.
  intros [Hb Hs] Hrecords. unfold handler. by rewrite Hb, Hs, Hrecords.
Qed.

(** The calls reported for the record at position [i]. *)
Lemma handler_trace fuel env world event sqsMessages i sqsMessage :
  configured env ->
  lodash_get event "Records" (VArr []) = VArr sqsMessages ->
  sqsMessages !! i = Some sqsMessage ->
  (handler fuel env world event).1 !! i =
  Some (calls (archive fuel env (world i) sqsMessage)).
Proof.
  intros Henv Hrecords Hi. rewrite (handler_configured _ _ _ _ sqsMessages) by done.
  simpl. by rewrite list_lookup_fmap, list_lookup_imap, Hi.
Qed.

Lemma handler_trace_inv fuel env world event sqsMessages i trace :
  configured env ->
  lodash_get event "Records" (VArr []) = VArr sqsMessages ->
  (handler fuel env world event).1 !! i = Some trace ->
  exists sqsMessage,
    sqsMessages !! i = Some sqsMessage /\
    trace = calls (archive fuel env (world i) sqsMessage).
Proof.
  intros Henv Hrecords. rewrite (handler_configured _ _ _ _ sqsMessages) by done.
  simpl. rewrite list_lookup_fmap, list_lookup_imap.
  destruct (sqsMessages !! i) as [r|]; [|done]. simpl. intros [= <-]. by exists r.
Qed.

End Invocation.

(** ** Indexed properties *)

Lemma pretty_N_go_numeral x s :
  numeral s = true -> numeral (pretty_N_go x s) = true.
Proof.
  revert s. induction (N.lt_wf_0 x) as [x _ IH]; intros s Hs.
  assert (x = 0 \/ 0 < x)%N as [->|Hx] by lia; [by rewrite pretty_N_go_0|].
  rewrite pretty_N_go_step by done. apply IH; [by apply N.div_lt|].
  simpl. rewrite Hs, andb_true_r. unfold pretty_N_char. by repeat case_match.
Qed.

Lemma pretty_nat_numeral (i : nat) : numeral (pretty i) = true.
Proof.
  unfold pretty, pretty_nat, pretty, pretty_N.
  case_decide; [done|]. by apply pretty_N_go_numeral.
Qed.

(** An array or a string has no property under a name that is not a
    numeral. *)
Lemma index_props_named l k : numeral k = false -> index_props l !! k = None.
Proof.
  intros Hk. unfold index_props. apply not_elem_of_list_to_map_1.
  intros Hin. apply list_elem_of_fmap in Hin as [[k' v] [-> Hin]].
  apply list_elem_of_lookup in Hin as [i Hi].
  rewrite list_lookup_imap in Hi.
  destruct (l !! i); [|done]. injection Hi as <- _.
  simpl in Hk. by rewrite pretty_nat_numeral in Hk.
Qed.

(** ** The envelope unwrapper *)

Lemma captured_error_skip `{Collaborators} outer rest :
  Forall (fun l => records_error l = false) outer ->
  captured_error (outer ++ rest) = captured_error rest.
Proof.
  unfold captured_error.
  induction 1 as [|l outer Hl _ IH]; [done|]. simpl. by rewrite Hl.
Qed.

Section EnvelopeSamples.
#[local] Existing Instance Sample.collaborators.

Lemma sample_layers :
  layers Sample.outer_record [Sample.outer_record; Sample.inner_record]
    Sample.execution_event.
Proof.
  apply (layers_layer _ Sample.inner_record); [reflexivity..|].
  apply (layers_layer _ Sample.execution_event); [reflexivity..|].
  apply layers_payload. reflexivity.
Defined.

(** The outermost layer of [outer_record] carries an [error] field, the
    empty string, and yet the loop captures the error of the layer inside:
    the captured error is not always the [error] field of the outermost
    layer that carries one. *)
Lemma denest_skips_falsy_error_field :
  ~ (forall (C : Collaborators) m ls p,
       layers m ls p ->
       denest (length ls) m VNull = Returns (p, outermost_error_field ls)).
Proof.
  intros Hclaim. specialize (Hclaim _ _ _ _ sample_layers).
  assert (VStr "Lambda timed out" = VStr "") as Habs; [|discriminate Habs].
  assert (forall a b : outcome (value * value), a = b ->
            match a, b with
            | Returns (_, x), Returns (_, y) => x = y
            | _, _ => True
            end) as Hsnd by (by intros a b ->; destruct b as [[]| |]).
  apply Hsnd in Hclaim. exact Hclaim.
Qed.

End EnvelopeSamples.

(** C1, amended.  For an envelope of queue-record-like layers, the loop of
    [hoistCumulusMessageDetails], given one iteration per layer, returns the
    payload inside, which is not queue-record-like, and the error it
    captures is the [error] field of the outermost failure-record-like layer
    whose [error] is truthy: layers outside it with no [error] or a falsy
    one (null, the empty string) are passed over, layers inside it are
    ignored, and with no such layer the captured error is null. *)
Theorem denest_captures_outermost_truthy_error `{Collaborators} m ls p fuel :
  layers m ls p ->
  length ls <= fuel ->
  denest fuel m VNull = Returns (p, captured_error ls) /\
  isSQSRecordLike p = false /\
  (forall outer layer inner,
     ls = outer ++ layer :: inner ->
     Forall (fun l => records_error l = false) outer ->
     records_error layer = true ->
     captured_error ls = read layer "error") /\
  (Forall (fun l => records_error l = false) ls -> captured_error ls = VNull).
Proof.
  intros Hls Hfuel. split; [by apply denest_captures|].
  split; [by eapply layers_payload_not_like|]. split.
  - intros outer layer inner -> Houter Hlayer.
    rewrite captured_error_skip by done.
    unfold captured_error. simpl. by rewrite Hlayer.
  - intros Hnone. rewrite <- (app_nil_r ls). by rewrite captured_error_skip.
Qed.

Lemma denest_captures_outermost_truthy_error_witness :
  denest (H := Sample.collaborators) 2 Sample.outer_record VNull =
    Returns (Sample.execution_event, VStr "Lambda timed out") /\
  isSQSRecordLike (Collaborators := Sample.collaborators) Sample.execution_event = false.
Proof.
  destruct (denest_captures_outermost_truthy_error (H := Sample.collaborators)
              _ _ _ 2 sample_layers (le_n 2)) as (Hd & Hp & _).
  split; [exact Hd | exact Hp].
Defined.

(** ** The metadata extractors, against the specification *)

Lemma or_null_opt_member granule k :
  or_null (opt_member granule k) =
  match own_props granule !! k with
  | Some v => if truthy v then v else VNull
  | None => VNull
  end.
Proof.
  rewrite opt_member_read. unfold read, or_null, js_or.
  by destruct (own_props granule !! k).
Qed.

Lemma payloadHasGranules_spec payload :
  payloadHasGranules payload =
  match payload with
  | VObj o => match o !! "granules" with Some (VArr _) => true | _ => false end
  | _ => false
  end.
Proof.
  unfold payloadHasGranules, js_in, read.
  destruct payload as [| | | | |l|o]; try done; simpl.
  - by rewrite index_props_named.
  - destruct (o !! "granules") as [[]|]; done.
Qed.

(** A granule with an empty identifier is mapped to null, not to its
    [granuleId] attribute. *)
Lemma extractGranules_drops_falsy_granuleId :
  ~ (forall message granules,
       truthy message = true ->
       payload_granules message = Some granules ->
       extractGranules message = Returns (VArr (granuleId_attribute <$> granules))).
Proof.
  intros Hclaim.
  specialize (Hclaim Sample.empty_granuleId_message _ eq_refl eq_refl).
  vm_compute in Hclaim. discriminate Hclaim.
Qed.

(** C5, amended.  For a resolved workflow message whose payload has a
    [granules] field that is an array, [extractGranules] maps each element
    to its [granuleId] attribute when that attribute is truthy and to null
    when the element lacks one or has a falsy one (such as the empty
    string), so that [[{granuleId:"G1"}, {}]] yields [["G1", null]]; when
    the payload has no such array field the result is null, never the empty
    list. *)
Theorem extractGranules_maps_granule_ids message :
  truthy message = true ->
  extractGranules message =
  Returns (match payload_granules message with
           | Some granules => VArr (granule_id <$> granules)
           | None => VNull
           end).
Proof.
  intros Hm. unfold extractGranules, payload_granules.
  rewrite member_truthy by done. simpl.
  rewrite payloadHasGranules_spec.
  destruct (read message "payload") as [| | | | |l|o] eqn:Hp; try done.
  destruct (o !! "granules") as [g|] eqn:Hg; [|done].
  destruct g as [| | | | |l|o']; try done.
  simpl. unfold read. simpl. rewrite Hg. simpl.
  do 2 f_equal. apply list_fmap_ext. intros _ g _. apply or_null_opt_member.
Qed.

Lemma extractGranules_maps_granule_ids_witness :
  extractGranules Sample.workflow_message = Returns (VArr [VStr "G1"; VNull]) /\
  extractGranules Sample.unnamed_collection_message = Returns VNull.
Proof.
  split.
  - exact (extractGranules_maps_granule_ids Sample.workflow_message eq_refl).
  - exact (extractGranules_maps_granule_ids Sample.unnamed_collection_message eq_refl).
Defined.

(** A collection whose name is present but empty gets no identifier. *)
Lemma extractCollectionId_null_for_empty_name :
  ~ (forall (C : Collaborators) message name version,
       collection_attribute message "name" = Some name ->
       collection_attribute message "version" = Some version ->
       extractCollectionId message = constructCollectionId name version).
Proof.
  intros Hclaim.
  specialize (Hclaim Sample.collaborators Sample.unnamed_collection_message
                _ _ eq_refl eq_refl).
  vm_compute in Hclaim. discriminate Hclaim.
Qed.

(** C6, amended.  [extractCollectionId] returns the identifier the
    system-wide composer builds from the collection name and version of the
    message metadata when both are present and truthy, and null otherwise:
    when either is missing or falsy (such as the empty string). *)
Theorem extractCollectionId_composes_name_and_version `{Collaborators} message :
  extractCollectionId message =
  match collection_attribute message "name",
        collection_attribute message "version" with
  | Some name, Some version =>
      if truthy name && truthy version
      then constructCollectionId name version
      else VNull
  | _, _ => VNull
  end.
Proof.
  unfold extractCollectionId, collection_attribute.
  rewrite !opt_member_read. unfold read.
  destruct (own_props message !! "meta") as [meta|]; simpl;
    [|by rewrite !lookup_empty].
  destruct (own_props meta !! "collection") as [collection|]; simpl;
    [|by rewrite !lookup_empty].
  unfold or_null, js_or.
  destruct (own_props collection !! "name") as [name|],
           (own_props collection !! "version") as [version|]; simpl;
    try destruct (truthy name) eqn:Hn; try destruct (truthy version) eqn:Hv;
    simpl; rewrite ?Hn, ?Hv; done.
Qed.

(** With the composer of the specification, collection [MOD09] at version
    [006] is identified as [MOD09___006]. *)
Example extractCollectionId_MOD09 :
  extractCollectionId (H := Sample.collaborators) Sample.workflow_message =
  VStr "MOD09___006".
Proof. reflexivity. Qed.

(** ** The enriched record, against the specification *)

Lemma hoisted_has_fields dlqRecord collectionId providerId granules
    executionArn stateMachineArn status time error k :
  k ∈ enrichment_fields ->
  is_Some (own_props (hoisted dlqRecord collectionId providerId granules
                        executionArn stateMachineArn status time error) !! k).
Proof.
  intros Hk.
  pose proof (hoisted_fields dlqRecord collectionId providerId granules
                executionArn stateMachineArn status time error)
    as (H1 & H2 & H3 & H4 & H5 & H6 & H7 & H8).
  unfold enrichment_fields in Hk.
  repeat (apply elem_of_cons in Hk as [->|Hk]; [by eexists|]).
  by apply elem_of_nil in Hk.
Qed.

(** C10.  Whenever the loop reaches a payload, [hoistCumulusMessageDetails]
    returns a record that has all eight enrichment fields.  Each holds the
    value the pipeline computed (from the captured error, the payload and
    the resolved message), whatever the original record had under that
    name, and every other property is that of the original record. *)
Theorem hoisted_record_fields `{Collaborators} fuel rsp dlqRecord ls payload :
  layers dlqRecord ls payload ->
  length ls <= fuel ->
  exists enriched granules,
    result (hoistCumulusMessageDetails fuel rsp dlqRecord) = Returns enriched /\
    (forall k, k ∈ enrichment_fields -> is_Some (own_props enriched !! k)) /\
    own_props enriched !! "collectionId" =
      Some (match resolved_message rsp payload with
            | Some message => extractCollectionId message
            | None => VNull
            end) /\
    own_props enriched !! "providerId" =
      Some (match resolved_message rsp payload with
            | Some message =>
                if isMessageWithProvider message
                then or_null (getMessageProviderId message) else VNull
            | None => VNull
            end) /\
    own_props enriched !! "granules" = Some granules /\
    match resolved_message rsp payload with
    | Some message => extractGranules message = Returns granules
    | None => granules = VNull
    end /\
    own_props enriched !! "executionArn" =
      Some (event_attribute payload (read (read payload "detail") "executionArn")) /\
    own_props enriched !! "stateMachineArn" =
      Some (event_attribute payload (read (read payload "detail") "stateMachineArn")) /\
    own_props enriched !! "status" =
      Some (event_attribute payload (read (read payload "detail") "status")) /\
    own_props enriched !! "time" =
      Some (event_attribute payload (read payload "time")) /\
    own_props enriched !! "error" = Some (captured_error ls) /\
    (forall k, k ∉ enrichment_fields ->
       own_props enriched !! k = own_props dlqRecord !! k).
Proof.
  intros Hls Hfuel.
  pose proof (denest_captures _ _ _ Hls fuel Hfuel) as Hden.
  unfold resolved_message, event_attribute.
  destruct (isEventBridgeEvent payload) eqn:Hev.
  - destruct (getCumulusMessageFromExecutionEvent rsp payload) as [e|cm] eqn:Hres.
    + eexists _, VNull.
      erewrite hoist_unresolved by done. simpl.
      split; [done|]. split; [apply hoisted_has_fields|].
      pose proof (hoisted_fields dlqRecord) as Hf.
      repeat (split; [apply Hf || done|]). apply hoisted_other.
    + destruct (truthy cm) eqn:Hcm.
      * destruct (extractGranules_returns cm Hcm) as [g Hg].
        eexists _, g.
        erewrite hoist_resolved by done. simpl.
        split; [done|]. split; [apply hoisted_has_fields|].
        pose proof (hoisted_fields dlqRecord) as Hf.
        repeat (split; [apply Hf || done|]). apply hoisted_other.
      * eexists _, VNull.
        erewrite hoist_resolved_falsy by done. simpl.
        split; [done|]. split; [apply hoisted_has_fields|].
        pose proof (hoisted_fields dlqRecord) as Hf.
        repeat (split; [apply Hf || done|]). apply hoisted_other.
  - eexists _, VNull.
    erewrite hoist_unclassified by done. simpl.
    split; [done|]. split; [apply hoisted_has_fields|].
    pose proof (hoisted_fields dlqRecord) as Hf.
    repeat (split; [apply Hf || done|]). apply hoisted_other.
Qed.

Section EnrichmentSamples.
#[local] Existing Instance Sample.collaborators.

Lemma plain_record_layers :
  layers Sample.plain_record [Sample.plain_record] Sample.execution_event.
Proof.
  apply (layers_layer _ Sample.execution_event); [reflexivity..|].
  apply layers_payload. reflexivity.
Defined.

Lemma unrecognised_record_layers :
  layers Sample.unrecognised_record [Sample.unrecognised_record]
    (object [("note", VStr "not an event")]).
Proof.
  apply (layers_layer _ (object [("note", VStr "not an event")]));
    [reflexivity..|].
  apply layers_payload. reflexivity.
Defined.

Lemma messageId_not_enrichment_field : "messageId" ∉ enrichment_fields.
Proof.
  intros Hk. unfold enrichment_fields in Hk.
  repeat (apply elem_of_cons in Hk as [Hk|Hk]; [discriminate Hk|]).
  by apply elem_of_nil in Hk.
Defined.

Lemma hoisted_record_fields_witness :
  exists enriched,
    result (hoistCumulusMessageDetails 1 (Sample.all_up Sample.token_1)
              Sample.plain_record) = Returns enriched /\
    own_props enriched !! "status" = Some (VStr "FAILED") /\
    own_props enriched !! "collectionId" = Some (VStr "MOD09___006") /\
    own_props enriched !! "error" = Some VNull /\
    own_props enriched !! "messageId" = Some (VStr "m-2").
Proof.
  destruct (hoisted_record_fields 1 (Sample.all_up Sample.token_1)
              _ _ _ plain_record_layers (le_n 1))
    as (enriched & granules & Hr & _ & Hc & _ & _ & _ & _ & _ & Hst & _ & He & Hother).
  exists enriched. split; [exact Hr|]. split; [exact Hst|].
  split; [exact Hc|]. split; [exact He|].
  rewrite (Hother "messageId" messageId_not_enrichment_field). reflexivity.
Defined.

End EnrichmentSamples.


(** C2.  When the payload the loop reaches is not an execution event,
    [hoistCumulusMessageDetails] returns, without calling the resolver, the
    record with [executionArn], [stateMachineArn], [status] and [time] null
    (and so the three fields of the metadata), the captured error as its
    [error] and every other property as the record has it; and the
    handler's pipeline goes on to write that record to the store, under
    the clock's date and the execution [unknown]: it ends as the write
    ends. *)
Theorem unclassified_payload_archived `{Collaborators}
    fuel env rsp dlqRecord ls payload :
  layers dlqRecord ls payload ->
  length ls <= fuel ->
  isEventBridgeEvent payload = false ->
  exists enriched,
    result (hoistCumulusMessageDetails fuel rsp dlqRecord) = Returns enriched /\
    own_props enriched !! "executionArn" = Some VNull /\
    own_props enriched !! "stateMachineArn" = Some VNull /\
    own_props enriched !! "status" = Some VNull /\
    own_props enriched !! "time" = Some VNull /\
    own_props enriched !! "collectionId" = Some VNull /\
    own_props enriched !! "providerId" = Some VNull /\
    own_props enriched !! "granules" = Some VNull /\
    own_props enriched !! "error" = Some (captured_error ls) /\
    (forall k, k ∉ enrichment_fields ->
       own_props enriched !! k = own_props dlqRecord !! k) /\
    (forall event,
       GetCumulusMessageFromExecutionEvent event
         ∉ calls (hoistCumulusMessageDetails fuel rsp dlqRecord)) /\
    (isSQSRecordLike dlqRecord = true ->
     exists request,
       calls (archive fuel env rsp dlqRecord) =
         [LogError "could not parse details from DLQ message body, expected EventBridgeEvent";
          S3PutObject request] /\
       Body request = JSON_stringify enriched /\
       Bucket request = env_var (system_bucket env) /\
       Key request =
         archive_key (archive_prefix env) (moment_utc_now_format rsp)
           "unknown" (uuidv4 rsp) /\
       result (archive fuel env rsp dlqRecord) = of_sum (s3PutObject rsp request)).
Proof.
  intros Hls Hfuel Hev.
  pose proof (denest_captures _ _ _ Hls fuel Hfuel) as Hden.
  pose proof (hoist_unclassified fuel rsp _ _ _ Hden Hev) as Hh.
  eexists. rewrite Hh. simpl. split; [done|].
  pose proof (hoisted_fields dlqRecord VNull VNull VNull VNull VNull VNull VNull
                (captured_error ls)) as Hf.
  repeat (split; [apply Hf|]).
  split; [apply hoisted_other|]. split.
  - intros event Hin. unfold calls in Hin. simpl in Hin.
    apply elem_of_cons in Hin as [Hin|Hin]; [discriminate Hin|].
    by apply elem_of_nil in Hin.
  - intros Hlike. eexists.
    erewrite (archive_enriched _ _ _ _ _ _ "unknown"); [|done..|].
    + unfold calls, result. cbn [fst snd app]. split; [reflexivity|].
      cbn [archive_request Body Bucket Key]. rewrite read_hoisted_time. done.
    + rewrite read_hoisted_executionArn. by apply template_no_execution.
Qed.

Lemma unclassified_payload_archived_witness :
  exists enriched request,
    result (hoistCumulusMessageDetails (H := Sample.collaborators) 1
              (Sample.all_up Sample.token_1) Sample.unrecognised_record)
      = Returns enriched /\
    own_props enriched !! "status" = Some VNull /\
    own_props enriched !! "messageId" = Some (VStr "m-3") /\
    calls (archive (H := Sample.collaborators) 1 Sample.env
             (Sample.all_up Sample.token_1) Sample.unrecognised_record) =
      [LogError "could not parse details from DLQ message body, expected EventBridgeEvent";
       S3PutObject request] /\
    Key request =
      "cumulus/dead-letter-archive/sqs/2026-11-02/unknown-1b4e28ba-2fa1-41d2-883f-0016d3cca427.json" /\
    result (archive (H := Sample.collaborators) 1 Sample.env
              (Sample.all_up Sample.token_1) Sample.unrecognised_record) = Returns tt.
Proof.
  destruct (unclassified_payload_archived (H := Sample.collaborators) 1 Sample.env
              (Sample.all_up Sample.token_1) _ _ _
              unrecognised_record_layers (le_n 1) eq_refl)
    as (enriched & Hr & _ & _ & Hst & _ & _ & _ & _ & _ & Hother & _ & Harch).
  destruct (Harch eq_refl) as (request & Hcalls & _ & _ & Hkey & Hres).
  exists enriched, request.
  split; [exact Hr|]. split; [exact Hst|].
  split; [exact (Hother "messageId" messageId_not_enrichment_field)|].
  split; [exact Hcalls|]. split; [exact Hkey | exact Hres].
Defined.

Section ResolverSamples.
#[local] Existing Instance Sample.collaborators.




End ResolverSamples.


(** A batch of three records, the resolver failing for the second one: all
    three are written, the second after the failure is logged, and the
    invocation is fulfilled. *)
Example resolver_failure_in_batch_of_three :
  let run :=
    handler (H := Sample.collaborators) 1 Sample.env
      (fun i => match i with
                | 1 => Sample.resolver_down Sample.token_2
                | _ => Sample.all_up Sample.token_1
                end)
      (object [("Records",
                VArr [Sample.plain_record; Sample.plain_record; Sample.plain_record])]) in
  length <$> run.1 = [2; 3; 2] /\ run.2 = Fulfilled VUndefined.
Proof. split; reflexivity. Qed.


(** ** The archival writer, against the specification *)

Lemma configured_stackName `{Collaborators} env :
  configured env ->
  exists stack,
    stackName env = Some stack /\
    archive_prefix env = stack +:+ "/dead-letter-archive/sqs".
Proof.
  intros [_ Hs]. unfold archive_prefix.
  destruct (stackName env) as [stack|]; [|done]. by exists stack.
Qed.

(** A queue-record-like record that gets enriched, and whose execution
    prints, is written. *)
Lemma archive_enriched_writes `{Collaborators}
    fuel env rsp sqsMessage cs enriched printed :
  isSQSRecordLike sqsMessage = true ->
  hoistCumulusMessageDetails fuel rsp sqsMessage = (cs, Returns enriched) ->
  truthy enriched = true ->
  template (execution_name (read enriched "executionArn")) = Returns printed ->
  S3PutObject (archive_request env rsp enriched printed)
    ∈ calls (archive fuel env rsp sqsMessage).
Proof.
  intros Hlike Hh Ht Hp. erewrite archive_enriched by done.
  unfold calls. simpl. apply elem_of_app. right. apply elem_of_cons. by left.
Qed.

(** What the handler writes for the record at position [i]. *)
Lemma handler_write_inv `{Collaborators}
    fuel env world event sqsMessages i trace params :
  configured env ->
  lodash_get event "Records" (VArr []) = VArr sqsMessages ->
  (handler fuel env world event).1 !! i = Some trace ->
  S3PutObject params ∈ trace ->
  exists stack sqsMessage document execution printed,
    stackName env = Some stack /\
    archive_prefix env = stack +:+ "/dead-letter-archive/sqs" /\
    sqsMessages !! i = Some sqsMessage /\
    massaged fuel (world i) sqsMessage document execution /\
    template (execution_name execution) = Returns printed /\
    params = archive_request env (world i) document printed.
Proof.
  intros Henv Hrecords Htrace Hin.
  destruct (configured_stackName env Henv) as (stack & Hstack & Hprefix).
  destruct (handler_trace_inv _ _ _ _ _ _ _ Henv Hrecords Htrace)
    as (sqsMessage & Hi & ->).
  destruct (archive_write_inv _ _ _ _ _ Hin)
    as (document & execution & printed & Hm & Hp & -> & _).
  by exists stack, sqsMessage, document, execution, printed.
Qed.

Section ArchiveSamples.
#[local] Existing Instance Sample.collaborators.

Lemma sample_env_configured : configured Sample.env.
Proof. split; reflexivity. Defined.

Lemma twin_batch_records :
  lodash_get Sample.twin_batch "Records" (VArr []) =
  VArr [Sample.plain_record; Sample.plain_record].
Proof. reflexivity. Defined.

Lemma plain_record_written rsp :
  exists cs enriched,
    hoistCumulusMessageDetails 1 rsp Sample.plain_record = (cs, Returns enriched) /\
    truthy enriched = true /\
    template (execution_name (read enriched "executionArn")) =
      Returns "arn:aws:states:us-east-1:1:execution:ingest:run-1".
Proof.
  destruct (hoist_event_fields 1 rsp _ _ _
              (denest_captures _ _ _ plain_record_layers 1 (le_n 1)))
    as (cs & c & p & g & Hh).
  eexists _, _. split; [exact Hh|]. split; [reflexivity|].
  rewrite read_hoisted_executionArn. reflexivity.
Defined.







End ArchiveSamples.

(** C8.  If the tokens generated for the records of an invocation are
    pairwise distinct, so are the keys written for any two of its records,
    whatever the records hold. *)
Theorem storage_keys_distinct `{Collaborators}
    fuel env world event sqsMessages i j trace_i trace_j params_i params_j :
  configured env ->
  lodash_get event "Records" (VArr []) = VArr sqsMessages ->
  (forall a b,
     a < length sqsMessages -> b < length sqsMessages -> a <> b ->
     uuid_text (uuidv4 (world a)) <> uuid_text (uuidv4 (world b))) ->
  i <> j ->
  (handler fuel env world event).1 !! i = Some trace_i ->
  (handler fuel env world event).1 !! j = Some trace_j ->
  S3PutObject params_i ∈ trace_i ->
  S3PutObject params_j ∈ trace_j ->
  Key params_i <> Key params_j.
Proof.
  intros Henv Hrecords Hdistinct Hij Hti Htj Hini Hinj Hkey.
  destruct (handler_write_inv _ _ _ _ _ _ _ _ Henv Hrecords Hti Hini)
    as (si & ri & di & ei & pi & _ & _ & Hi & _ & _ & ->).
  destruct (handler_write_inv _ _ _ _ _ _ _ _ Henv Hrecords Htj Hinj)
    as (sj & rj & dj & ej & pj & _ & _ & Hj & _ & _ & ->).
  simpl in Hkey.
  apply archive_key_token_inj in Hkey.
  - apply lookup_lt_Some in Hi, Hj. by apply (Hdistinct i j).
  - by rewrite !uuid_length.
Qed.

Section KeySamples.
#[local] Existing Instance Sample.collaborators.

Lemma two_tokens_distinct a b :
  a < 2 -> b < 2 -> a <> b ->
  uuid_text (uuidv4 (Sample.two_tokens a)) <> uuid_text (uuidv4 (Sample.two_tokens b)).
Proof.
  intros Ha Hb Hab.
  destruct a as [|[|a]], b as [|[|b]]; try lia; discriminate.
Defined.

Lemma storage_keys_distinct_witness :
  exists params_1 params_2,
    S3PutObject params_1 ∈
      calls (archive 1 Sample.env (Sample.two_tokens 0) Sample.plain_record) /\
    S3PutObject params_2 ∈
      calls (archive 1 Sample.env (Sample.two_tokens 1) Sample.plain_record) /\
    Key params_1 <> Key params_2.
Proof.
  destruct (plain_record_written (Sample.two_tokens 0))
    as (cs1 & doc1 & Hh1 & Ht1 & Hp1).
  destruct (plain_record_written (Sample.two_tokens 1))
    as (cs2 & doc2 & Hh2 & Ht2 & Hp2).
  pose proof (archive_enriched_writes 1 Sample.env (Sample.two_tokens 0)
                Sample.plain_record cs1 doc1 _ eq_refl Hh1 Ht1 Hp1) as H1.
  pose proof (archive_enriched_writes 1 Sample.env (Sample.two_tokens 1)
                Sample.plain_record cs2 doc2 _ eq_refl Hh2 Ht2 Hp2) as H2.
  eexists _, _. split; [exact H1|]. split; [exact H2|].
  exact (storage_keys_distinct 1 Sample.env Sample.two_tokens Sample.twin_batch
           _ 0 1 _ _ _ _
           sample_env_configured twin_batch_records two_tokens_distinct
           (O_S 0)
           (handler_trace _ _ _ _ _ 0 _ sample_env_configured twin_batch_records eq_refl)
           (handler_trace _ _ _ _ _ 1 _ sample_env_configured twin_batch_records eq_refl)
           H1 H2).
Defined.

End KeySamples.

Section OpaqueSamples.
#[local] Existing Instance Sample.collaborators.

(** A batch whose only record is [null]: the pipeline throws on reading
    [massagedMessage.time], nothing is written and the invocation fails. *)
Example handler_null_record :
  handler 1 Sample.env Sample.two_tokens (object [("Records", VArr [VNull])]) =
  ([[]], Rejected ["TypeError: Cannot read properties of null (reading 'time')"]).
Proof. reflexivity. Qed.


End OpaqueSamples.


Section OpaqueWitness.
#[local] Existing Instance Sample.collaborators.


End OpaqueWitness.

(** ** The invocation, against the specification *)

Lemma handler_results_settle `{Collaborators} fuel env world sqsMessages :
  Forall (settles fuel) sqsMessages ->
  Forall (fun o => out_of_fuel o = false)
    (result <$> imap (fun i => archive fuel env (world i)) sqsMessages).
Proof.
  intros Hs. apply Forall_lookup. intros i o Ho.
  rewrite list_lookup_fmap, list_lookup_imap in Ho.
  destruct (sqsMessages !! i) as [r|] eqn:Hi; [|done].
  injection Ho as <-. apply archive_settles.
  by eapply Forall_lookup_1 in Hs.
Qed.


Section InvocationSamples.
#[local] Existing Instance Sample.collaborators.




End InvocationSamples.

(** * Further properties of the program *)

(** ** Bodies that do not parse *)

Section Broken.
Context `{Collaborators}.

Lemma denest_broken m ls e :
  broken m ls e ->
  forall fuel error, length ls <= fuel -> denest fuel m error = Throws e.
Proof.
  induction 1 as [m e Hm Hp | m m' ls e Hm Hp _ IH]; intros fuel error Hfuel;
    (destruct fuel as [|fuel]; simpl in Hfuel; [lia|]).
  - simpl. rewrite Hm, Hp.
    destruct (isDLQRecordLike m) eqn:Hd; simpl; [|done].
    destruct (truthy error); simpl; [done|].
    by rewrite isDLQRecordLike_member.
  - rewrite (denest_layer _ _ m') by done. apply IH. lia.
Qed.

Lemma denest_throws_inv fuel :
  forall m error e,
    denest fuel m error = Throws e ->
    exists ls, broken m ls e /\ length ls <= fuel.
Proof.
  induction fuel as [|fuel IH]; intros m error e Hd.
  - simpl in Hd. by destruct (isSQSRecordLike m).
  - destruct (isSQSRecordLike m) eqn:Hm; [|by rewrite denest_payload in Hd].
    destruct (parseSQSMessageBody m) as [e'|m'] eqn:Hp.
    + exists [m]. split; [|simpl; lia].
      rewrite (denest_broken m [m] e') in Hd;
        [|by apply broken_here|simpl; lia].
      injection Hd as <-. by apply broken_here.
    + rewrite (denest_layer _ _ m') in Hd by done.
      destruct (IH _ _ _ Hd) as (ls & Hls & Hlen).
      exists (m :: ls). split; [by eapply broken_layer|simpl; lia].
Qed.

(** A broken envelope is queue-record-like. *)
Lemma broken_like m ls e : broken m ls e -> isSQSRecordLike m = true.
Proof. by destruct 1. Qed.

End Broken.

(** X1.  When the body of some layer of a queue record does not parse, the
    failure is not caught: the loop, [hoistCumulusMessageDetails] and the
    handler's pipeline for the record all throw it, and the pipeline makes no
    call at all: nothing is logged and the record is not written. *)
Theorem unparsable_body_fails_record `{Collaborators} fuel env rsp m ls e :
  broken m ls e ->
  length ls <= fuel ->
  denest fuel m VNull = Throws e /\
  hoistCumulusMessageDetails fuel rsp m = ([], Throws e) /\
  archive fuel env rsp m = ([], Throws e).
Proof.
  intros Hb Hfuel.
  pose proof (denest_broken _ _ _ Hb fuel VNull Hfuel) as Hd.
  split; [done|].
  assert (hoistCumulusMessageDetails fuel rsp m = ([], Throws e)) as Hh.
  { unfold hoistCumulusMessageDetails. by rewrite Hd. }
  split; [done|].
  unfold archive. by rewrite (broken_like _ _ _ Hb), Hh.
Qed.

Section BrokenSamples.
#[local] Existing Instance Sample.collaborators.

Lemma garbled_record_broken :
  broken Sample.garbled_record [Sample.garbled_record]
    "SyntaxError: body is not decoded".
Proof. apply broken_here; reflexivity. Defined.

Lemma unparsable_body_fails_record_witness :
  archive 1 Sample.env (Sample.all_up Sample.token_1) Sample.garbled_record =
  ([], Throws "SyntaxError: body is not decoded").
Proof.
  exact (proj2 (proj2 (unparsable_body_fails_record 1 Sample.env
                         (Sample.all_up Sample.token_1) _ _ _
                         garbled_record_broken (le_n 1)))).
Defined.

End BrokenSamples.

(** ** How a record's pipeline ends *)

(** The ways a pipeline can go: it gets to its write, which is its last
    call and the only one to the store, and ends as the write ends; or it
    throws before making any call; or it enriches its record and throws on
    printing the execution, without writing; or its loop does not finish. *)
Lemma archive_inv `{Collaborators} fuel env rsp sqsMessage :
  (exists cs params,
     archive fuel env rsp sqsMessage =
       (cs ++ [S3PutObject params], of_sum (s3PutObject rsp params)) /\
     (forall q, S3PutObject q ∉ cs) /\
     Bucket params = env_var (system_bucket env)) \/
  (exists e,
     archive fuel env rsp sqsMessage = ([], Throws e) /\
     ((exists ls, broken sqsMessage ls e /\ length ls <= fuel) \/
      (isSQSRecordLike sqsMessage = false /\
       (sqsMessage = VNull \/ sqsMessage = VUndefined)))) \/
  (exists cs e enriched,
     archive fuel env rsp sqsMessage = (cs, Throws e) /\
     (forall q, S3PutObject q ∉ cs) /\
     isSQSRecordLike sqsMessage = true /\
     result (hoistCumulusMessageDetails fuel rsp sqsMessage) = Returns enriched /\
     template (execution_name (read enriched "executionArn")) = Throws e) \/
  archive fuel env rsp sqsMessage = ([], OutOfFuel).
Proof.
  destruct (isSQSRecordLike sqsMessage) eqn:Hlike.
  - destruct (denest fuel sqsMessage VNull) as [[p err]|e|] eqn:Hden.
    + destruct (hoist_returns fuel rsp sqsMessage p err Hden)
        as (cs & c & pr & g & ea & sm & st & t & Hh & Hcs & _).
      match type of Hh with _ = (_, Returns ?enriched) =>
        destruct (template_cases (execution_name (read enriched "executionArn")))
          as [[printed Hp]|[e Hp]]
      end.
      * left. eexists cs, _. split; [by eapply archive_enriched|]. by split.
      * right. right. left. eexists cs, e, _.
        split; [by eapply archive_unprintable|].
        split; [done|]. split; [done|]. split; [by rewrite Hh | done].
    + right. left. exists e. split.
      * unfold archive, hoistCumulusMessageDetails. by rewrite Hlike, Hden.
      * left. by eapply denest_throws_inv.
    + right. right. right. unfold archive, hoistCumulusMessageDetails.
      by rewrite Hlike, Hden.
  - assert (sqsMessage = VNull \/ sqsMessage = VUndefined \/
            (sqsMessage <> VNull /\ sqsMessage <> VUndefined))
      as [->|[->|[Hn Hu]]] by (destruct sqsMessage; naive_solver).
    + right. left. eexists. split; [unfold archive; by rewrite Hlike|].
      right. auto.
    + right. left. eexists. split; [unfold archive; by rewrite Hlike|].
      right. auto.
    + left. exists [], (archive_request env rsp sqsMessage "unknown").
      split; [by apply archive_opaque|]. split; [|done].
      intros q Hq. by apply elem_of_nil in Hq.
Qed.

(** A pipeline that returns has written its record. *)
Lemma archive_returns_inv `{Collaborators} fuel env rsp sqsMessage u :
  result (archive fuel env rsp sqsMessage) = Returns u ->
  exists params,
    S3PutObject params ∈ calls (archive fuel env rsp sqsMessage) /\
    s3PutObject rsp params = inr tt.
Proof.
  intros Hr.
  destruct (archive_inv fuel env rsp sqsMessage)
    as [(cs & params & Ha & _)|[(e & Ha & _)|[(cs & e & d & Ha & _)|Ha]]];
    rewrite Ha in Hr |- *; unfold result, calls in *; simpl in *; try done.
  exists params. split.
  - apply elem_of_app. right. apply elem_of_cons. by left.
  - by destruct (s3PutObject rsp params) as [e|[]].
Qed.


Lemma await_all_fulfilled_inv promises v :
  await_all promises = Fulfilled v ->
  v = VUndefined /\ Forall (fun o => o = Returns tt) promises.
Proof.
  unfold await_all.
  destruct (existsb out_of_fuel promises) eqn:Hfuel; [done|].
  destruct (omap rejection promises) as [|e es] eqn:Hrej; [|done].
  intros [= <-]. split; [done|].
  induction promises as [|o os IH]; [done|].
  simpl in Hfuel, Hrej. apply orb_false_elim in Hfuel as [Ho Hos].
  destruct o as [[]|e|]; try done.
  constructor; [done|]. by apply IH.
Qed.


(** Only a configured handler with an array of records runs pipelines. *)
Lemma handler_runs_inv `{Collaborators} fuel env world event :
  (exists sqsMessages,
     configured env /\
     lodash_get event "Records" (VArr []) = VArr sqsMessages) \/
  (exists e, handler fuel env world event = ([], Rejected [e])).
Proof.
  unfold handler, configured.
  destruct (truthy (env_var (system_bucket env))); simpl; [|by right; eexists].
  destruct (truthy (env_var (stackName env))); simpl; [|by right; eexists].
  destruct (lodash_get event "Records" (VArr [])) eqn:Hr;
    try (by right; eexists).
  left. by eexists.
Qed.

(** ** Invocations, from their outcome *)

(** X2.  An invocation is fulfilled only when nothing was dropped: the
    environment is configured, the event carries an array of records (or
    none, which counts as the empty batch), the value returned is
    [undefined], a pipeline ran for every record, and every one of them
    wrote its record to the store, successfully. *)
Theorem fulfilled_means_every_record_written `{Collaborators}
    fuel env world event v :
  (handler fuel env world event).2 = Fulfilled v ->
  v = VUndefined /\
  configured env /\
  exists sqsMessages,
    lodash_get event "Records" (VArr []) = VArr sqsMessages /\
    length (handler fuel env world event).1 = length sqsMessages /\
    forall i sqsMessage,
      sqsMessages !! i = Some sqsMessage ->
      exists trace params,
        (handler fuel env world event).1 !! i = Some trace /\
        S3PutObject params ∈ trace /\
        s3PutObject (world i) params = inr tt.
Proof.
  intros Hf.
  destruct (handler_runs_inv fuel env world event)
    as [(sqsMessages & Henv & Hrecords)|[e He]]; [|by rewrite He in Hf].
  rewrite (handler_configured _ _ _ _ sqsMessages) in Hf |- * by done.
  simpl in Hf |- *.
  apply await_all_fulfilled_inv in Hf as [-> Hall].
  split; [done|]. split; [done|]. exists sqsMessages. split; [done|].
  split; [by rewrite length_fmap, length_imap|].
  intros i sqsMessage Hi.
  assert (result (archive fuel env (world i) sqsMessage) = Returns tt) as Hr.
  { eapply Forall_lookup_1 in Hall; [exact Hall|].
    by rewrite list_lookup_fmap, list_lookup_imap, Hi. }
  destruct (archive_returns_inv _ _ _ _ _ Hr) as (params & Hin & Hok).
  exists (calls (archive fuel env (world i) sqsMessage)), params.
  split; [|done]. by rewrite list_lookup_fmap, list_lookup_imap, Hi.
Qed.


(** X4.  A configured handler runs one pipeline per record, and a pipeline
    writes at most once.  Its trace either holds no write at all (the
    pipeline threw before reaching its write: on a body that does not
    parse, on a record that is [null] or [undefined], or, after the
    resolver was called, on an execution that does not print), or ends with
    its only write, which goes to the bucket the environment names. *)
Theorem one_write_per_record `{Collaborators}
    fuel env world event sqsMessages :
  configured env ->
  lodash_get event "Records" (VArr []) = VArr sqsMessages ->
  length (handler fuel env world event).1 = length sqsMessages /\
  forall i trace,
    (handler fuel env world event).1 !! i = Some trace ->
    (forall q, S3PutObject q ∉ trace) \/
    exists cs params bucket,
      trace = cs ++ [S3PutObject params] /\
      (forall q, S3PutObject q ∉ cs) /\
      system_bucket env = Some bucket /\
      Bucket params = VStr bucket.
Proof.
  intros Henv Hrecords.
  rewrite (handler_configured _ _ _ _ sqsMessages) by done. simpl.
  split; [by rewrite length_fmap, length_imap|].
  intros i trace Htrace.
  rewrite list_lookup_fmap, list_lookup_imap in Htrace.
  destruct (sqsMessages !! i) as [sqsMessage|]; [|done].
  injection Htrace as <-.
  destruct (archive_inv fuel env (world i) sqsMessage)
    as [(cs & params & Ha & Hcs & Hb)
       |[(e & Ha & _)|[(cs & e & d & Ha & Hcs & _)|Ha]]];
    rewrite Ha; unfold calls; simpl.
  - right. destruct Henv as [Hbucket _].
    destruct (system_bucket env) as [bucket|] eqn:Hsb; [|done].
    by exists cs, params, bucket.
  - left. intros q Hq. by apply elem_of_nil in Hq.
  - by left.
  - left. intros q Hq. by apply elem_of_nil in Hq.
Qed.

(** X5.  Without its configuration the handler rejects the invocation
    before running any pipeline.  An unset or empty [system_bucket] is
    reported first, whatever [stackName] is; an unset or empty [stackName]
    is reported when [system_bucket] is set. *)
Theorem handler_configuration_errors `{Collaborators} fuel env world event :
  (system_bucket env = None \/ system_bucket env = Some "" ->
   handler fuel env world event =
   ([], Rejected ["Error: System bucket env var is required."])) /\
  (forall bucket,
     system_bucket env = Some bucket -> bucket <> "" ->
     stackName env = None \/ stackName env = Some "" ->
     handler fuel env world event =
     ([], Rejected ["Error: Could not determine archive path as stackName env var is undefined."])).
Proof.
  unfold handler. split.
  - by intros [-> | ->].
  - intros bucket -> Hb Hs.
    assert (truthy (env_var (Some bucket)) = true) as ->
      by (by destruct bucket).
    by destruct Hs as [-> | ->].
Qed.

(** X6.  A configured handler given an event with no [Records] (or no event
    at all), or with an empty array of them, makes no call and fulfils the
    invocation. *)
Theorem handler_without_records `{Collaborators} fuel env world event :
  configured env ->
  own_props event !! "Records" = None \/
  own_props event !! "Records" = Some (VArr []) ->
  handler fuel env world event = ([], Fulfilled VUndefined).
Proof.
  intros Henv Hrecords.
  apply (handler_configured _ _ _ _ []); [done|].
  unfold lodash_get. rewrite opt_member_read. unfold read.
  by destruct Hrecords as [-> | ->].
Qed.

Section OutcomeSamples.
#[local] Existing Instance Sample.collaborators.

Lemma fulfilled_means_every_record_written_witness :
  exists trace params,
    (handler 1 Sample.env Sample.two_tokens Sample.twin_batch).1 !! 1 = Some trace /\
    S3PutObject params ∈ trace /\
    s3PutObject (Sample.two_tokens 1) params = inr tt.
Proof.
  assert ((handler 1 Sample.env Sample.two_tokens Sample.twin_batch).2
          = Fulfilled VUndefined) as Hf by reflexivity.
  destruct (fulfilled_means_every_record_written 1 Sample.env Sample.two_tokens
              Sample.twin_batch VUndefined Hf)
    as (_ & _ & sqsMessages & Hrecords & _ & Hall).
  apply (Hall 1 Sample.plain_record).
  rewrite twin_batch_records in Hrecords. by injection Hrecords as <-.
Defined.


Lemma one_write_per_record_witness :
  length (handler 1 Sample.env Sample.two_tokens Sample.twin_batch).1 = 2.
Proof.
  exact (proj1 (one_write_per_record 1 Sample.env Sample.two_tokens
                  Sample.twin_batch _ sample_env_configured twin_batch_records)).
Defined.

Lemma handler_without_records_witness :
  handler 1 Sample.env Sample.two_tokens (object [("detail", VNull)]) =
    ([], Fulfilled VUndefined) /\
  handler 1 Sample.env Sample.two_tokens VNull = ([], Fulfilled VUndefined).
Proof.
  split.
  - apply (handler_without_records 1 Sample.env Sample.two_tokens
             (object [("detail", VNull)]) sample_env_configured).
    left. reflexivity.
  - apply (handler_without_records 1 Sample.env Sample.two_tokens VNull
             sample_env_configured).
    left. reflexivity.
Defined.

End OutcomeSamples.

(** ** Enrichment, call by call and field by field *)

Lemma captured_error_null_or_truthy `{Collaborators} ls :
  null_or_truthy (captured_error ls).
Proof.
  unfold captured_error, null_or_truthy.
  destruct (find records_error ls) as [layer|] eqn:Hfind; [|by left].
  apply find_some in Hfind as [_ Hlayer].
  unfold records_error in Hlayer. apply andb_prop in Hlayer as [_ Ht].
  by right.
Qed.

Lemma or_null_null_or_truthy `{Collaborators} v : null_or_truthy (or_null v).
Proof. apply or_null_cases. Qed.

(** What [extractGranules] returns for a message that is let through: null,
    or an array whose entries are null or truthy. *)
Lemma extractGranules_entries `{Collaborators} message granules :
  truthy message = true ->
  extractGranules message = Returns granules ->
  granules = VNull \/
  exists ids, granules = VArr ids /\ Forall null_or_truthy ids.
Proof.
  intros Hm. unfold extractGranules.
  rewrite member_truthy by done. simpl.
  destruct (payloadHasGranules (read message "payload")) eqn:Hp;
    [|intros [= <-]; by left].
  unfold payloadHasGranules in Hp.
  apply andb_prop in Hp as [Hp Harr]. apply andb_prop in Hp as [Hobj _].
  rewrite member_Returns by (by intros E; rewrite E in Hobj). simpl.
  destruct (read (read message "payload") "granules") as [| | | | |l|]; try done.
  simpl. intros [= <-]. right. eexists. split; [done|].
  apply Forall_fmap, Forall_true. intros g. apply or_null_null_or_truthy.
Qed.

(** X7.  For an envelope around a payload, [hoistCumulusMessageDetails]
    calls the resolver exactly when the payload is an execution event, once,
    and on the payload itself; it logs one error when the payload is not an
    execution event or when the resolver throws, nothing when the resolver
    answers (even with nothing usable); and it never writes to the store. *)
Theorem hoist_calls `{Collaborators} fuel rsp dlqRecord ls payload :
  layers dlqRecord ls payload ->
  length ls <= fuel ->
  calls (hoistCumulusMessageDetails fuel rsp dlqRecord) =
  if isEventBridgeEvent payload then
    GetCumulusMessageFromExecutionEvent payload ::
    match getCumulusMessageFromExecutionEvent rsp payload with
    | inl e =>
        [LogError ("could not parse details from DLQ message body due to " +:+ e)]
    | inr _ => []
    end
  else
    [LogError "could not parse details from DLQ message body, expected EventBridgeEvent"].
Proof.
  intros Hls Hfuel.
  pose proof (denest_captures _ _ _ Hls fuel Hfuel) as Hden.
  destruct (isEventBridgeEvent payload) eqn:Hev.
  - destruct (getCumulusMessageFromExecutionEvent rsp payload) as [e|cm] eqn:Hres.
    + by erewrite hoist_unresolved.
    + destruct (truthy cm) eqn:Hcm.
      * destruct (extractGranules_returns cm Hcm) as [g Hg].
        by erewrite hoist_resolved.
      * by erewrite hoist_resolved_falsy.
  - by erewrite hoist_unclassified.
Qed.

(** X8.  Every field [hoistCumulusMessageDetails] adds, but for the
    identifier the composer builds, is null or truthy, never [undefined],
    an empty string, zero or [false]; and so is every entry of a
    [granules] array. *)
Theorem hoisted_fields_null_or_truthy `{Collaborators}
    fuel rsp dlqRecord ls payload :
  layers dlqRecord ls payload ->
  length ls <= fuel ->
  exists enriched,
    result (hoistCumulusMessageDetails fuel rsp dlqRecord) = Returns enriched /\
    (forall k,
       k ∈ ["providerId"; "granules"; "executionArn"; "stateMachineArn";
            "status"; "time"; "error"] ->
       exists v, own_props enriched !! k = Some v /\ null_or_truthy v) /\
    (forall ids,
       own_props enriched !! "granules" = Some (VArr ids) ->
       Forall null_or_truthy ids).
Proof.
  intros Hls Hfuel.
  pose proof (denest_captures _ _ _ Hls fuel Hfuel) as Hden.
  pose proof (captured_error_null_or_truthy ls) as Herr.
  assert (null_or_truthy VNull) as Hnull by (by left).
  assert (forall c p g ea sm st t,
            null_or_truthy p -> null_or_truthy g -> null_or_truthy ea ->
            null_or_truthy sm -> null_or_truthy st -> null_or_truthy t ->
            (forall ids, g = VArr ids -> Forall null_or_truthy ids) ->
            let enriched := hoisted dlqRecord c p g ea sm st t (captured_error ls) in
            (forall k,
               k ∈ ["providerId"; "granules"; "executionArn"; "stateMachineArn";
                    "status"; "time"; "error"] ->
               exists v, own_props enriched !! k = Some v /\ null_or_truthy v) /\
            (forall ids,
               own_props enriched !! "granules" = Some (VArr ids) ->
               Forall null_or_truthy ids)) as Hfields.
  { intros c p g ea sm st t Hp Hg Hea Hsm Hst Ht Hids enriched.
    pose proof (hoisted_fields dlqRecord c p g ea sm st t (captured_error ls))
      as (_ & H2 & H3 & H4 & H5 & H6 & H7 & H8).
    split.
    - intros k Hk.
      repeat (apply elem_of_cons in Hk as [->|Hk]; [by eexists|]).
      by apply elem_of_nil in Hk.
    - intros ids Hg'. subst enriched. rewrite H3 in Hg'.
      injection Hg' as ->. by apply Hids. }
  destruct (isEventBridgeEvent payload) eqn:Hev.
  - destruct (getCumulusMessageFromExecutionEvent rsp payload) as [e|cm] eqn:Hres.
    + eexists. erewrite hoist_unresolved by done. split; [done|].
      apply Hfields; try done; apply or_null_null_or_truthy.
    + destruct (truthy cm) eqn:Hcm.
      * destruct (extractGranules_returns cm Hcm) as [g Hg].
        destruct (extractGranules_entries cm g Hcm Hg) as [->|(ids & -> & Hids)].
        -- eexists. erewrite hoist_resolved by done. split; [done|].
           apply Hfields; try done; try apply or_null_null_or_truthy.
           destruct (isMessageWithProvider cm);
             [apply or_null_null_or_truthy | done].
        -- eexists. erewrite hoist_resolved by done. split; [done|].
           apply Hfields; try done; try apply or_null_null_or_truthy.
           ++ destruct (isMessageWithProvider cm);
                [apply or_null_null_or_truthy | done].
           ++ by right.
           ++ by intros ids' [= <-].
      * eexists. erewrite hoist_resolved_falsy by done. split; [done|].
        apply Hfields; try done; apply or_null_null_or_truthy.
  - eexists. erewrite hoist_unclassified by done. split; [done|].
    by apply Hfields.
Qed.

(** X9.  Enriching a queue record that is failure-record-like with a
    truthy [error] of its own leaves that [error] in place, whatever the
    layers inside carry. *)
Theorem record_error_preserved `{Collaborators}
    fuel rsp dlqRecord ls payload error :
  layers dlqRecord ls payload ->
  length ls <= fuel ->
  isSQSRecordLike dlqRecord = true ->
  isDLQRecordLike dlqRecord = true ->
  own_props dlqRecord !! "error" = Some error ->
  truthy error = true ->
  exists enriched,
    result (hoistCumulusMessageDetails fuel rsp dlqRecord) = Returns enriched /\
    own_props enriched !! "error" = Some error.
Proof.
  intros Hls Hfuel Hlike Hdlq Herror Htruthy.
  pose proof (denest_captures _ _ _ Hls fuel Hfuel) as Hden.
  assert (captured_error ls = error) as Hcap.
  { assert (read dlqRecord "error" = error) as Hread
      by (unfold read; by rewrite Herror).
    assert (records_error dlqRecord = true) as Hrec
      by (unfold records_error; by rewrite Hdlq, Hread, Htruthy).
    clear Hden. destruct Hls as [p Hp | m m' ls p _ _ _]; [congruence|].
    unfold captured_error. simpl. by rewrite Hrec. }
  destruct (hoist_returns fuel rsp dlqRecord payload _ Hden)
    as (cs & c & p & g & ea & sm & st & t & Hh & _).
  eexists. rewrite Hh. split; [done|].
  rewrite <- Hcap. apply hoisted_fields.
Qed.

Section CallSamples.
#[local] Existing Instance Sample.collaborators.

Lemma inner_record_layers :
  layers Sample.inner_record [Sample.inner_record] Sample.execution_event.
Proof.
  apply (layers_layer _ Sample.execution_event); [reflexivity..|].
  apply layers_payload. reflexivity.
Defined.

Lemma hoist_calls_witness :
  calls (hoistCumulusMessageDetails 1 (Sample.all_up Sample.token_1)
           Sample.plain_record) =
    [GetCumulusMessageFromExecutionEvent Sample.execution_event] /\
  calls (hoistCumulusMessageDetails 1 (Sample.all_up Sample.token_1)
           Sample.unrecognised_record) =
    [LogError "could not parse details from DLQ message body, expected EventBridgeEvent"].
Proof.
  split.
  - exact (hoist_calls 1 (Sample.all_up Sample.token_1) _ _ _
             plain_record_layers (le_n 1)).
  - exact (hoist_calls 1 (Sample.all_up Sample.token_1) _ _ _
             unrecognised_record_layers (le_n 1)).
Defined.

Lemma hoisted_fields_null_or_truthy_witness :
  exists enriched v,
    result (hoistCumulusMessageDetails 1 (Sample.resolver_down Sample.token_1)
              Sample.plain_record) = Returns enriched /\
    own_props enriched !! "providerId" = Some v /\
    null_or_truthy v.
Proof.
  destruct (hoisted_fields_null_or_truthy 1 (Sample.resolver_down Sample.token_1)
              _ _ _ plain_record_layers (le_n 1))
    as (enriched & Hr & Hfields & _).
  destruct (Hfields "providerId") as (v & Hv & Hnt);
    [apply elem_of_cons; by left|].
  by exists enriched, v.
Defined.

Lemma record_error_preserved_witness :
  exists enriched,
    result (hoistCumulusMessageDetails 1 (Sample.all_up Sample.token_1)
              Sample.inner_record) = Returns enriched /\
    own_props enriched !! "error" = Some (VStr "Lambda timed out").
Proof.
  apply (record_error_preserved 1 (Sample.all_up Sample.token_1) _ _ _ _
           inner_record_layers (le_n 1)); reflexivity.
Defined.

End CallSamples.

(** ** Keys, from what a record holds *)






(** X12.  [payloadHasGranules] accepts exactly the objects with a
    [granules] property that is an array; it refuses arrays, strings,
    numbers, booleans, null and undefined. *)
Theorem payloadHasGranules_iff payload :
  payloadHasGranules payload = true <->
  exists o granules, payload = VObj o /\ o !! "granules" = Some (VArr granules).
Proof.
  rewrite payloadHasGranules_spec. split.
  - destruct payload as [| | | | | |o]; try done.
    destruct (o !! "granules") as [[| | | | |granules|]|] eqn:Hg; try done.
    intros _. by exists o, granules.
  - intros (o & granules & -> & Hg). by rewrite Hg.
Qed.

(** X13.  In a configured invocation over records whose loops finish, a
    record with a body that does not parse gets the invocation rejected
    with the parser's error among the reasons, and nothing is logged or
    written for that record. *)
Theorem unparsable_record_rejects_invocation `{Collaborators}
    fuel env world event sqsMessages i sqsMessage ls e :
  configured env ->
  lodash_get event "Records" (VArr []) = VArr sqsMessages ->
  Forall (settles fuel) sqsMessages ->
  sqsMessages !! i = Some sqsMessage ->
  broken sqsMessage ls e ->
  length ls <= fuel ->
  (handler fuel env world event).1 !! i = Some [] /\
  exists reasons,
    (handler fuel env world event).2 = Rejected reasons /\ e ∈ reasons.
Proof.
  intros Henv Hrecords Hsettles Hi Hb Hfuel.
  assert (archive fuel env (world i) sqsMessage = ([], Throws e)) as Ha.
  { unfold archive, hoistCumulusMessageDetails.
    by rewrite (broken_like _ _ _ Hb), (denest_broken _ _ _ Hb fuel VNull Hfuel). }
  split.
  - rewrite (handler_trace _ _ _ _ _ _ _ Henv Hrecords Hi). by rewrite Ha.
  - rewrite (handler_configured _ _ _ _ sqsMessages) by done. simpl.
    apply await_all_rejected; [by apply handler_results_settle|].
    apply list_elem_of_lookup. exists i.
    rewrite list_lookup_fmap, list_lookup_imap, Hi. simpl. by rewrite Ha.
Qed.

Section KeySamples2.
#[local] Existing Instance Sample.collaborators.



Lemma garbled_batch_settles :
  Forall (settles 1) [Sample.plain_record; Sample.garbled_record].
Proof.
  constructor; [exact (layers_settles _ _ _ plain_record_layers)|].
  constructor; [|constructor].
  apply (settles_throw 0 _ "SyntaxError: body is not decoded"); reflexivity.
Defined.

Lemma unparsable_record_rejects_invocation_witness :
  exists reasons,
    (handler 1 Sample.env Sample.two_tokens
       (object [("Records", VArr [Sample.plain_record; Sample.garbled_record])])).2
      = Rejected reasons /\
    "SyntaxError: body is not decoded" ∈ reasons.
Proof.
  exact (proj2 (unparsable_record_rejects_invocation 1 Sample.env Sample.two_tokens
                  (object [("Records",
                            VArr [Sample.plain_record; Sample.garbled_record])])
                  _ 1 _ _ _
                  sample_env_configured eq_refl garbled_batch_settles eq_refl
                  garbled_record_broken (le_n 1))).
Defined.

End KeySamples2.

(** ** Values that are no envelopes *)

(** X14.  Given a value that is not queue-record-like,
    [hoistCumulusMessageDetails] takes the value itself for the payload, its
    loop making no iteration: the [error] of the result is null, whatever
    [error] the value has of its own, and the fields of an execution event
    are read off the value. *)
Theorem hoist_bare_value `{Collaborators} fuel rsp dlqRecord :
  isSQSRecordLike dlqRecord = false ->
  exists enriched,
    result (hoistCumulusMessageDetails fuel rsp dlqRecord) = Returns enriched /\
    own_props enriched !! "error" = Some VNull /\
    own_props enriched !! "executionArn" =
      Some (event_attribute dlqRecord (read (read dlqRecord "detail") "executionArn")) /\
    own_props enriched !! "time" =
      Some (event_attribute dlqRecord (read dlqRecord "time")).
Proof.
  intros Hlike.
  pose proof (denest_payload fuel dlqRecord VNull Hlike) as Hden.
  destruct (hoist_event_fields fuel rsp _ _ _ Hden) as (cs & c & p & g & Hh).
  eexists. rewrite Hh. split; [done|].
  match goal with |- context [hoisted ?d ?c ?p ?g ?ea ?sm ?st ?t ?err] =>
    pose proof (hoisted_fields d c p g ea sm st t err)
      as (_ & _ & _ & H4 & _ & _ & H7 & H8)
  end.
  by rewrite H4, H7, H8.
Qed.

Section BareSamples.
#[local] Existing Instance Sample.collaborators.

Lemma hoist_bare_value_witness :
  exists enriched,
    result (hoistCumulusMessageDetails 0 (Sample.all_up Sample.token_1)
              Sample.execution_event) = Returns enriched /\
    own_props enriched !! "error" = Some VNull /\
    own_props enriched !! "time" = Some (VStr "2024-03-05T10:00:00Z").
Proof.
  destruct (hoist_bare_value (H := Sample.collaborators) 0
              (Sample.all_up Sample.token_1) Sample.execution_event
              ltac:(reflexivity))
    as (enriched & Hr & He & _ & Ht).
  exists enriched. split; [exact Hr|]. split; [exact He | exact Ht].
Defined.

Lemma handler_configuration_errors_witness :
  handler 1 Sample.env_without_bucket Sample.two_tokens Sample.twin_batch =
    ([], Rejected ["Error: System bucket env var is required."]) /\
  handler 1 Sample.env_without_stack Sample.two_tokens Sample.twin_batch =
    ([], Rejected ["Error: Could not determine archive path as stackName env var is undefined."]).
Proof.
  split.
  - apply (proj1 (handler_configuration_errors 1 Sample.env_without_bucket
                    Sample.two_tokens Sample.twin_batch)).
    left. reflexivity.
  - apply (proj2 (handler_configuration_errors 1 Sample.env_without_stack
                    Sample.two_tokens Sample.twin_batch) "internal").
    + reflexivity.
    + discriminate.
    + right. reflexivity.
Defined.

End BareSamples.
